(** * Model catalog selector of jetbot/utils/model_selection_v1.py

    A shallow embedding of the class [model_selection] (and of the older
    copy kept under .ipynb_checkpoints), with the pieces of Python,
    pandas, numpy and traitlets its methods rely on written out as
    executable functions:

    - [str.split(sep, 1)], [os.path.join] (POSIX) and list indexing;
    - a data frame of three string columns as an ordered list of rows;
      [Series.astype("category").cat.categories] as the sorted distinct
      values of a column;
    - [ndarray] values of rank 0, 1 and 2 with [np.squeeze] and [tolist];
    - trait assignment with change notification (an observer is called
      only when the stored value really changes).

    Python exceptions are values of [exn]; a method that may raise
    returns [result A = exn + A].

    What the embedding takes from the libraries:

    - [pd.read_csv] is taken at its result, the parsed table; the three
      columns hold strings.
    - [self.df.values] of a frame of three string columns is the frame's
      own array, so the loop of [__init__] that assigns [p[2]] rewrites
      the catalog in place, as the code relies on.
    - Strings are byte strings; their order is the byte-wise
      lexicographic one, which is Python's code-point order on UTF-8
      text.
    - The paths are POSIX paths. *)

From Stdlib Require Import String Ascii List Bool.
From Stdlib Require Import Sorting.Sorted Structures.OrdersEx Classes.RelationClasses.
Import ListNotations.
Local Open Scope string_scope.
Local Open Scope list_scope.

(** ** Exceptions and the error monad *)

Inductive exn : Type :=
| FileNotFoundError   (* pd.read_csv on a missing file *)
| AttributeError      (* reading an attribute that was never assigned *)
| IndexError          (* list index out of range *)
| TraitError.         (* traitlets: value rejected by the trait's type *)

Definition result (A : Type) : Type := (exn + A)%type.

Definition ret {A} (a : A) : result A := inr a.
Definition raise {A} (e : exn) : result A := inl e.
Definition bind {A B} (m : result A) (k : A -> result B) : result B :=
  match m with
  | inl e => inl e
  | inr a => k a
  end.

Declare Scope result_scope.
Delimit Scope result_scope with result.
Notation "x <- m ;; k" := (bind m (fun x => k))
  (at level 61, m at next level, right associativity) : result_scope.
Local Open Scope result_scope.

(** The failure kinds of the specification's error table, read on the
    Python exceptions the code raises: a catalog-load failure is a missing
    backing file or a row whose path cannot be split. *)
Definition is_catalog_load_error (e : exn) : bool :=
  match e with
  | FileNotFoundError | IndexError => true
  | AttributeError | TraitError => false
  end.

(** The name of the Python class of an exception. *)
Definition exn_name (e : exn) : string :=
  match e with
  | FileNotFoundError => "FileNotFoundError"
  | AttributeError => "AttributeError"
  | IndexError => "IndexError"
  | TraitError => "TraitError"
  end.

(** ** Python strings *)

Module Py.

(** [s.startswith(p)] *)
Definition startswith (p s : string) : bool := String.prefix p s.

(** [s.endswith("/")], on the one-character separator the code uses. *)
Fixpoint endswith_char (c : ascii) (s : string) : bool :=
  match s with
  | EmptyString => false
  | String a EmptyString => Ascii.eqb a c
  | String _ s' => endswith_char c s'
  end.

(** [s.split(sep, 1)] for a one-character [sep]: the list holding [s]
    alone when [sep] does not occur, else the text before the first
    occurrence and the text after it. *)
Fixpoint split_1 (sep : ascii) (s : string) : list string :=
  match s with
  | EmptyString => [EmptyString]
  | String c s' =>
      if Ascii.eqb c sep then [EmptyString; s']
      else let r := split_1 sep s' in String c (hd EmptyString r) :: tl r
  end.

(** [l[i]] *)
Definition index {A} (l : list A) (i : nat) : result A :=
  match nth_error l i with
  | Some x => ret x
  | None => raise IndexError
  end.

(** [sep in s] *)
Fixpoint contains_char (c : ascii) (s : string) : bool :=
  match s with
  | EmptyString => false
  | String a s' => Ascii.eqb a c || contains_char c s'
  end.

End Py.

(** [os.path.join(a, b)] of posixpath, two arguments. *)
Definition os_path_join (a b : string) : string :=
  if Py.startswith "/" b then b
  else if (a =? "") || Py.endswith_char "/" a then a ++ b
  else a ++ "/" ++ b.

(** ** The catalog table *)

(** One line of the headerless csv file; the columns are HEAD_LIST. *)
Record row : Type := Row {
  col_model_function : string;
  col_model_type : string;
  col_model_path : string
}.

Definition DataFrame : Type := list row.

(** The files [pd.read_csv] can open: a path has a parsed table or does
    not exist. *)
Definition filesystem : Type := string -> option DataFrame.

Definition read_csv (fs : filesystem) (path : string) : result DataFrame :=
  match fs path with
  | Some d => ret d
  | None => raise FileNotFoundError
  end.

(** ** pandas: categories of a column *)

Module Pd.

(** [pd.unique]: distinct values in order of first appearance. *)
Fixpoint unique (l : list string) : list string :=
  match l with
  | [] => []
  | x :: l' => x :: filter (fun y => negb (y =? x)) (unique l')
  end.

Fixpoint insert_sorted (x : string) (l : list string) : list string :=
  match l with
  | [] => [x]
  | y :: l' =>
      match String_as_OT.compare x y with
      | Gt => y :: insert_sorted x l'
      | _ => x :: l
      end
  end.

(** [Index.sort_values] on strings: ascending code-point order. *)
Definition sort_values (l : list string) : list string :=
  fold_right insert_sorted [] l.

(** [series.astype("category").cat.categories] *)
Definition categories (l : list string) : list string :=
  sort_values (unique l).

End Pd.

(** ** numpy arrays of strings *)

Module Np.

(** Arrays of rank 0, 1 and 2.  A rank-2 array carries its number of
    columns, which an array without rows still has. *)
Inductive ndarray : Type :=
| Arr0 (x : string)
| Arr1 (xs : list string)
| Arr2 (ncols : nat) (rows : list (list string)).

(** What [tolist] hands back: a bare scalar for rank 0, nested lists
    otherwise. *)
Inductive pyvalue : Type :=
| PyStr (s : string)
| PyList (l : list string)
| PyListList (l : list (list string)).

(** [a[:, j]] *)
Definition getitem_col (a : ndarray) (j : nat) : result ndarray :=
  match a with
  | Arr2 ncols rows =>
      if Nat.ltb j ncols then ret (Arr1 (map (fun r => nth j r EmptyString) rows))
      else raise IndexError
  | _ => raise IndexError
  end.

(** [np.squeeze(a)]: every axis of length one is dropped. *)
Definition squeeze (a : ndarray) : ndarray :=
  match a with
  | Arr0 x => Arr0 x
  | Arr1 [x] => Arr0 x
  | Arr1 xs => Arr1 xs
  | Arr2 ncols rows =>
      match rows, ncols with
      | [r], 1 => Arr0 (nth 0 r EmptyString)
      | [r], _ => Arr1 r
      | _, 1 => Arr1 (map (fun r => nth 0 r EmptyString) rows)
      | _, _ => Arr2 ncols rows
      end
  end.

(** [a.tolist()] *)
Definition tolist (a : ndarray) : pyvalue :=
  match a with
  | Arr0 x => PyStr x
  | Arr1 xs => PyList xs
  | Arr2 _ rows => PyListList rows
  end.

End Np.

(** ** The selector object *)

Record model_selection : Type := Selector {
  core_library : string;
  df : option DataFrame;          (* [None]: the attribute was never assigned *)
  model_function : string;
  model_function_list : list string;
  model_type : string;
  model_type_list : list string;
  model_path : string;
  model_path_list : list string;
  selected_model_path : string;
  is_selected : bool
}.

Definition with_df (d : DataFrame) (s : model_selection) : model_selection :=
  Selector (core_library s) (Some d) (model_function s) (model_function_list s)
    (model_type s) (model_type_list s) (model_path s) (model_path_list s)
    (selected_model_path s) (is_selected s).

Definition with_model_function (v : string) (s : model_selection) : model_selection :=
  Selector (core_library s) (df s) v (model_function_list s)
    (model_type s) (model_type_list s) (model_path s) (model_path_list s)
    (selected_model_path s) (is_selected s).

Definition with_model_function_list (v : list string) (s : model_selection)
  : model_selection :=
  Selector (core_library s) (df s) (model_function s) v
    (model_type s) (model_type_list s) (model_path s) (model_path_list s)
    (selected_model_path s) (is_selected s).

Definition with_model_type (v : string) (s : model_selection) : model_selection :=
  Selector (core_library s) (df s) (model_function s) (model_function_list s)
    v (model_type_list s) (model_path s) (model_path_list s)
    (selected_model_path s) (is_selected s).

Definition with_model_type_list (v : list string) (s : model_selection)
  : model_selection :=
  Selector (core_library s) (df s) (model_function s) (model_function_list s)
    (model_type s) v (model_path s) (model_path_list s)
    (selected_model_path s) (is_selected s).

Definition with_model_path (v : string) (s : model_selection) : model_selection :=
  Selector (core_library s) (df s) (model_function s) (model_function_list s)
    (model_type s) (model_type_list s) v (model_path_list s)
    (selected_model_path s) (is_selected s).

Definition with_model_path_list (v : list string) (s : model_selection)
  : model_selection :=
  Selector (core_library s) (df s) (model_function s) (model_function_list s)
    (model_type s) (model_type_list s) (model_path s) v
    (selected_model_path s) (is_selected s).

(** [self.df]: an attribute that was never assigned raises. *)
Definition getattr_df (s : model_selection) : result DataFrame :=
  match df s with
  | Some d => ret d
  | None => raise AttributeError
  end.

(** The [List] trait accepts a list and nothing else. *)
Definition validate_List (v : Np.pyvalue) : result (list string) :=
  match v with
  | Np.PyList l => ret l
  | _ => raise TraitError
  end.

(** [frame[frame.model_function == v]] and [frame[frame.model_type == v]] *)
Definition select_model_function (v : string) (d : DataFrame) : DataFrame :=
  filter (fun r => col_model_function r =? v) d.

Definition select_model_type (v : string) (d : DataFrame) : DataFrame :=
  filter (fun r => col_model_type r =? v) d.

(** [frame.loc[:, ['model_path']].values]: one column, one line per row. *)
Definition loc_model_path_values (d : DataFrame) : Np.ndarray :=
  Np.Arr2 1 (map (fun r => [col_model_path r]) d).

(** [update_model_type_list]; the value the method returns is the field
    [model_type_list] of the resulting object. *)
Definition update_model_type_list (self : model_selection) : result model_selection :=
  d <- getattr_df self ;;
  let mf := select_model_function (model_function self) d in
  ret (with_model_type_list (Pd.categories (map col_model_type mf)) self).

(** [update_model_list] of model_selection_v1.py *)
Definition update_model_list (self : model_selection) : result model_selection :=
  d <- getattr_df self ;;
  let mf := select_model_function (model_function self) d in
  let mt := select_model_type (model_type self) mf in
  let mpl := loc_model_path_values mt in
  c <- Np.getitem_col mpl 0 ;;
  l <- validate_List (Np.tolist c) ;;
  ret (with_model_path_list l self).

(** [update_model_list] of .ipynb_checkpoints/model_selection-checkpoint.py *)
Definition update_model_list_checkpoint (self : model_selection)
  : result model_selection :=
  d <- getattr_df self ;;
  let mf := select_model_function (model_function self) d in
  let mt := select_model_type (model_type self) mf in
  let mpl := loc_model_path_values mt in
  l <- validate_List (Np.tolist (Np.squeeze mpl)) ;;
  ret (with_model_path_list l self).

(** The change dictionary traitlets passes to an observer; the handler
    reads the keys ['name'] and ['new'] only. *)
Record change : Type := Change { name : string; new : string }.

(** [update_model]: three independent tests on the trait name.  The
    assignments inside the handler store the value that was just
    notified, so they raise no further notification. *)
Definition update_model (self : model_selection) (c : change) : result model_selection :=
  s1 <- (if name c =? "model_function"
         then update_model_type_list (with_model_function (new c) self)
         else ret self) ;;
  s2 <- (if name c =? "model_type"
         then update_model_list (with_model_type (new c) s1)
         else ret s1) ;;
  ret (if name c =? "model_path"
       then with_model_path (new c) s2
       else s2).

(** ** Construction *)

(** The traits' default values, before [__init__] assigns anything. *)
Definition HasTraits_init (lib : string) : model_selection :=
  Selector lib None "object detection" [] "SSD" [] "" [] "" false.

(** [for p in self.df.values: p[2] = os.path.join(root, p[2].split("/", 1)[1])]
    The rows are rewritten in place, first to last; the first row whose
    path has no separator raises. *)
Fixpoint rewrite_paths (dir_model_repo : string) (rows : DataFrame) : result DataFrame :=
  match rows with
  | [] => ret []
  | p :: rest =>
      tail <- Py.index (Py.split_1 "/" (col_model_path p)) 1 ;;
      let p' := Row (col_model_function p) (col_model_type p)
                    (os_path_join dir_model_repo tail) in
      rest' <- rewrite_paths dir_model_repo rest ;;
      ret (p' :: rest')
  end.

Definition __init__ (fs : filesystem) (lib dir_model_repo : string)
  : result model_selection :=
  let self := HasTraits_init lib in
  self <- (if core_library self =? "TensorRT" then
             d <- read_csv fs (os_path_join dir_model_repo "trt_model_tbl.csv") ;;
             ret (with_df d self)
           else if core_library self =? "Pytorch" then
             d <- read_csv fs (os_path_join dir_model_repo "torch_model_tbl.csv") ;;
             ret (with_df d self)
           else ret self) ;;
  d <- getattr_df self ;;
  d' <- rewrite_paths dir_model_repo d ;;
  let self := with_df d' self in
  let self := with_model_function_list
                (Pd.categories (map col_model_function d')) self in
  self <- update_model_type_list self ;;
  self <- update_model_list self ;;
  ret self.

(** ** Trait assignment

    [obj.trait = v] stores [v] and calls the observers registered for the
    trait when the stored value changed.  [__init__] registers
    [update_model] on the three traits below. *)

Definition set_function (f : string) (s : model_selection) : result model_selection :=
  let old := model_function s in
  let s' := with_model_function f s in
  if old =? f then ret s' else update_model s' (Change "model_function" f).

Definition set_type (t : string) (s : model_selection) : result model_selection :=
  let old := model_type s in
  let s' := with_model_type t s in
  if old =? t then ret s' else update_model s' (Change "model_type" t).

Definition set_path (p : string) (s : model_selection) : result model_selection :=
  let old := model_path s in
  let s' := with_model_path p s in
  if old =? p then ret s' else update_model s' (Change "model_path" p).

(** A caller's sequence of assignments. *)
Inductive setter : Type :=
| SetFunction (f : string)
| SetType (t : string)
| SetPath (p : string).

Definition call (c : setter) (s : model_selection) : result model_selection :=
  match c with
  | SetFunction f => set_function f s
  | SetType t => set_type t s
  | SetPath p => set_path p s
  end.

Fixpoint run (cs : list setter) (s : model_selection) : result model_selection :=
  match cs with
  | [] => ret s
  | c :: cs' => s' <- call c s ;; run cs' s'
  end.

(** ** The scenario catalog *)

Definition scenario_rows : DataFrame :=
  [ Row "object detection" "SSD" "repo/a/m1.trt";
    Row "object detection" "SSD" "repo/a/m2.trt";
    Row "object detection" "ResNet" "repo/b/m3.trt";
    Row "lane following" "CNN" "repo/c/m4.trt" ].

(** A file system holding one table. *)
Definition single_file (path : string) (d : DataFrame) : filesystem :=
  fun p => if p =? path then Some d else None.

Definition scenario_fs : filesystem :=
  single_file "/root/trt_model_tbl.csv" scenario_rows.

(** ** Vocabulary of the statements *)

(** The scenario catalog once its paths are resolved under "/root". *)
Definition scenario_catalog : DataFrame :=
  [ Row "object detection" "SSD" "/root/a/m1.trt";
    Row "object detection" "SSD" "/root/a/m2.trt";
    Row "object detection" "ResNet" "/root/b/m3.trt";
    Row "lane following" "CNN" "/root/c/m4.trt" ].

(** The object [__init__] leaves behind once the rows are rewritten. *)
Definition constructed (lib : string) (d : DataFrame) : model_selection :=
  Selector lib (Some d) "object detection"
    (Pd.categories (map col_model_function d))
    "SSD"
    (Pd.categories
       (map col_model_type (select_model_function "object detection" d)))
    ""
    (map col_model_path
       (select_model_type "SSD" (select_model_function "object detection" d)))
    "" false.

(** The backing table of a supported tag holds [rows]. *)
Definition loaded (fs : filesystem) (lib dir_model_repo : string) (rows : DataFrame)
  : Prop :=
  (lib = "TensorRT" /\
   fs (os_path_join dir_model_repo "trt_model_tbl.csv") = Some rows) \/
  (lib = "Pytorch" /\
   fs (os_path_join dir_model_repo "torch_model_tbl.csv") = Some rows).

(** [r] is the row [raw] with its path cut after the first separator and
    joined to the root. *)
Definition resolved (dir_model_repo : string) (raw r : row) : Prop :=
  col_model_function r = col_model_function raw /\
  col_model_type r = col_model_type raw /\
  exists pre post,
    col_model_path raw = (pre ++ "/" ++ post)%string /\
    Py.contains_char "/" pre = false /\
    col_model_path r = os_path_join dir_model_repo post.

(** The states a caller can observe: a constructed selector after any
    sequence of assignments. *)
Definition reachable (s : model_selection) : Prop :=
  exists fs lib dir_model_repo s0 cs,
    __init__ fs lib dir_model_repo = inr s0 /\ run cs s0 = inr s.

(** The type options are those of the current function. *)
Definition consistent (s : model_selection) (d : DataFrame) : Prop :=
  df s = Some d /\
  model_type_list s =
    Pd.categories (map col_model_type (select_model_function (model_function s) d)).

(** ** The older copy of the class

    .ipynb_checkpoints/model_selection-checkpoint.py: the constructor
    takes the tag alone, reads the tables under MODEL_REPO_DIR_DOCKER and
    fills the path list with its own [update_model_list]. *)

(** [MODEL_REPO_DIR_DOCKER = os.path.join("/workspace", "model_repo")],
    also the default of [dir_model_repo] in model_selection_v1.py. *)
Definition MODEL_REPO_DIR_DOCKER : string := os_path_join "/workspace" "model_repo".

Module Checkpoint.

Definition __init__ (fs : filesystem) (lib : string) : result model_selection :=
  let self := HasTraits_init lib in
  self <- (if core_library self =? "TensorRT" then
             d <- read_csv fs (os_path_join MODEL_REPO_DIR_DOCKER "trt_model_tbl.csv") ;;
             ret (with_df d self)
           else if core_library self =? "Pytorch" then
             d <- read_csv fs (os_path_join MODEL_REPO_DIR_DOCKER "torch_model_tbl.csv") ;;
             ret (with_df d self)
           else ret self) ;;
  d <- getattr_df self ;;
  d' <- rewrite_paths MODEL_REPO_DIR_DOCKER d ;;
  let self := with_df d' self in
  let self := with_model_function_list
                (Pd.categories (map col_model_function d')) self in
  self <- update_model_type_list self ;;
  self <- update_model_list_checkpoint self ;;
  ret self.

End Checkpoint.

(** The rows the default selection (object detection, SSD) matches. *)
Definition default_rows (d : DataFrame) : DataFrame :=
  select_model_type "SSD" (select_model_function "object detection" d).

(** Every row has a separator in its path. *)
Definition all_separated (rows : DataFrame) : bool :=
  forallb (fun r => Py.contains_char "/" (col_model_path r)) rows.

(** ** load_tune_pth_model *)

(** [sub in s] on strings. *)
Fixpoint str_contains (sub s : string) : bool :=
  String.prefix sub s ||
  match s with
  | EmptyString => false
  | String _ s' => str_contains sub s'
  end.

Section LoadTune.

(** The network objects, and the exceptions a call into torchvision can
    raise. *)
Variable Model : Type.
Variable E : Type.

(** What [getattr(pth_models, name)] can find: an attribute that cannot
    be called (a submodule such as [torchvision.models.resnet]), or a
    callable; the call with [pretrained=...] returns a model or raises. *)
Inductive attribute : Type :=
| NotCallable
| Callable (call : bool -> E + Model).

(** What [load_tune_pth_model] can raise: AttributeError from [getattr]
    on a name the module does not have, TypeError from calling an
    attribute that is not callable, whatever the call itself raises, and
    AssertionError from the [assert] of the last branch (assertions are
    taken as enabled). *)
Inductive tune_exn : Type :=
| TuneAttributeError
| TuneTypeError
| CallRaised (e : E)
| AssertionError.

(** [torchvision.models]: the attributes it has, by name. *)
Variable pth_models : string -> option attribute.

(** [assert (model is not None and model_type is not None)]; [model] is
    the object the call returned. *)
Definition assert_typed (model : Model) (model_type : option string)
  : tune_exn + unit :=
  match model_type with
  | Some _ => inr tt
  | None => inl AssertionError
  end.

Definition load_tune_pth_model (pth_model_name : string) (pretrained : bool)
  : tune_exn + (Model * option string) :=
  let model_type : option string := None in
  match pth_models pth_model_name with
  | None => inl TuneAttributeError
  | Some NotCallable => inl TuneTypeError
  | Some (Callable call) =>
      match call pretrained with
      | inl e => inl (CallRaised e)
      | inr model =>
          let branch : tune_exn + option string :=
            if str_contains "mobilenet_v3" pth_model_name then inr (Some "MobileNet")
            else if pth_model_name =? "mobilenet_v2" then inr (Some "MobileNet")
            else if pth_model_name =? "vgg11" then inr (Some "VggNet")
            else if str_contains "resnet" pth_model_name then inr (Some "ResNet")
            else if str_contains "efficientnet" pth_model_name
                 then inr (Some "EfficientNet")
            else if pth_model_name =? "inception_v3" then inr (Some "InceptionNet")
            else if pth_model_name =? "googlenet" then inr (Some "GoogleNet")
            else if str_contains "densenet" pth_model_name then inr (Some "DenseNet")
            else if str_contains "shufflenet_v2" pth_model_name
                 then inr (Some "ShuffleNet")
            else if str_contains "mnasnet" pth_model_name then inr (Some "MnasNet")
            else match assert_typed model model_type with
                 | inl e => inl e
                 | inr _ => inr model_type
                 end in
          match branch with
          | inl e => inl e
          | inr t => inr (model, t)
          end
      end
  end.

End LoadTune.

(** The labels [load_tune_pth_model] assigns. *)
Definition model_type_labels : list string :=
  ["MobileNet"; "VggNet"; "ResNet"; "EfficientNet"; "InceptionNet";
   "GoogleNet"; "DenseNet"; "ShuffleNet"; "MnasNet"].

(** Every path option is the path of a catalog row of the current type. *)
Definition path_options_typed (s : model_selection) (d : DataFrame) : Prop :=
  forall p, In p (model_path_list s) ->
            exists r, In r d /\ col_model_path r = p /\
                      col_model_type r = model_type s.

(** The raw path has a first separator and the text after it is
    relative (does not start with a separator itself). *)
Definition tail_relative (raw : string) : Prop :=
  exists pre post,
    raw = (pre ++ "/" ++ post)%string /\
    Py.contains_char "/" pre = false /\
    Py.startswith "/" post = false.

(** The object [__init__] has built when it reaches [update_model_list]. *)
Definition before_model_list (lib : string) (d : DataFrame) : model_selection :=
  with_model_path_list [] (constructed lib d).

(** A small [torchvision.models] for the instances below: one
    constructor, one submodule. *)
Definition small_models : string -> option (attribute bool string) :=
  fun n => if n =? "alexnet"
           then Some (Callable bool string (fun pretrained => inr pretrained))
           else if n =? "vgg" then Some (NotCallable bool string)
           else None.

(** * Properties *)

(** ** Sanity checks of the library models *)

Example categories_ex :
  Pd.categories ["SSD"; "SSD"; "ResNet"; "CNN"; "SSD"] = ["CNN"; "ResNet"; "SSD"].
Proof. reflexivity. Qed.

Example split_ex1 : Py.split_1 "/" "repo/sub/model.onnx" = ["repo"; "sub/model.onnx"].
Proof. reflexivity. Qed.

Example split_ex2 : Py.split_1 "/" "model.onnx" = ["model.onnx"].
Proof. reflexivity. Qed.

Example join_ex : os_path_join "/data/models" "sub/model.onnx" = "/data/models/sub/model.onnx".
Proof. reflexivity. Qed.


(** [os.path.join] puts the root in front of a relative tail, and drops
    it when the tail is absolute (a raw path with two separators in a
    row). *)
Lemma os_path_join_relative (a b : string) :
  Py.startswith "/" b = false -> a <> "" -> Py.endswith_char "/" a = false ->
  os_path_join a b = (a ++ "/" ++ b)%string.
Proof.
  intros Hb Ha He. unfold os_path_join. rewrite Hb, He.
  apply String.eqb_neq in Ha. rewrite Ha. reflexivity.
Qed.

Example join_absolute_tail :
  Py.index (Py.split_1 "/" "repo//abs/m.trt") 1 = inr "/abs/m.trt" /\
  os_path_join "/root" "/abs/m.trt" = "/abs/m.trt".
Proof. split; reflexivity. Qed.

(** ** The error monad *)

Lemma bind_inr {A B} (m : result A) (k : A -> result B) (b : B) :
  bind m k = inr b -> exists a, m = inr a /\ k a = inr b.
Proof.
  destruct m as [e | a]; simpl; intros H.
  - discriminate.
  - exists a; split; [reflexivity | exact H].
Qed.

(** ** Strings *)

Section SplitOnce.

Variable sep : ascii.

Lemma split_1_absent (s : string) :
  Py.contains_char sep s = false -> Py.split_1 sep s = [s].
Proof.
  induction s as [| c s IH]; simpl; intros H.
  - reflexivity.
  - apply orb_false_iff in H as [Hc Hs].
    rewrite Hc, (IH Hs). reflexivity.
Qed.

Lemma split_1_first (pre post : string) :
  Py.contains_char sep pre = false ->
  Py.split_1 sep (pre ++ String sep post)%string = [pre; post].
Proof.
  induction pre as [| c pre IH]; simpl; intros H.
  - rewrite Ascii.eqb_refl. reflexivity.
  - apply orb_false_iff in H as [Hc Hs].
    rewrite Hc, (IH Hs). reflexivity.
Qed.

Lemma contains_char_cut (s : string) :
  Py.contains_char sep s = true ->
  exists pre post, s = (pre ++ String sep post)%string /\ Py.contains_char sep pre = false.
Proof.
  induction s as [| c s IH]; simpl; intros H.
  - discriminate.
  - destruct (Ascii.eqb c sep) eqn:Hc.
    + apply Ascii.eqb_eq in Hc; subst c.
      exists EmptyString, s. split; reflexivity.
    + simpl in H. destruct (IH H) as (pre & post & -> & Hpre).
      exists (String c pre), post. split; [reflexivity |].
      simpl. rewrite Hc. exact Hpre.
Qed.

(** Where the text is cut is determined by the text. *)
Lemma cut_unique (pre pre' post post' : string) :
  Py.contains_char sep pre = false ->
  Py.contains_char sep pre' = false ->
  (pre ++ String sep post)%string = (pre' ++ String sep post')%string ->
  pre = pre' /\ post = post'.
Proof.
  intros H H' E.
  pose proof (split_1_first pre post H) as S1.
  pose proof (split_1_first pre' post' H') as S2.
  rewrite E in S1. rewrite S1 in S2. injection S2; auto.
Qed.

End SplitOnce.

(** ** Categories: sorted and distinct *)

Section Categories.

Local Abbreviation lt := String_as_OT.lt.

Lemma unique_In (l : list string) (x : string) :
  In x (Pd.unique l) <-> In x l.
Proof.
  induction l as [| a l IH]; simpl.
  - tauto.
  - rewrite filter_In, IH, negb_true_iff, String.eqb_neq.
    destruct (String.eqb_spec a x) as [-> | Hne]; intuition congruence.
Qed.

Lemma unique_NoDup (l : list string) : NoDup (Pd.unique l).
Proof.
  induction l as [| a l IH]; simpl.
  - constructor.
  - constructor.
    + rewrite filter_In, String.eqb_refl. simpl. intros [_ H]. discriminate.
    + apply NoDup_filter. exact IH.
Qed.

Lemma insert_sorted_In (x y : string) (l : list string) :
  In y (Pd.insert_sorted x l) <-> y = x \/ In y l.
Proof.
  induction l as [| a l IH]; simpl.
  - intuition.
  - destruct (String_as_OT.compare x a); simpl; rewrite ?IH; intuition.
Qed.

Lemma sort_values_In (l : list string) (x : string) :
  In x (Pd.sort_values l) <-> In x l.
Proof.
  unfold Pd.sort_values. induction l as [| a l IH]; simpl.
  - tauto.
  - rewrite insert_sorted_In, IH. intuition.
Qed.

Lemma compare_Gt_lt (x y : string) :
  String_as_OT.compare x y = Gt -> lt y x.
Proof.
  intros H. destruct (String_as_OT.compare_spec x y); congruence.
Qed.

Lemma compare_Eq_eq (x y : string) :
  String_as_OT.compare x y = Eq -> x = y.
Proof.
  intros H. destruct (String_as_OT.compare_spec x y); congruence.
Qed.

Lemma lt_irrefl (x : string) : ~ lt x x.
Proof. apply (StrictOrder_Irreflexive (R := lt)). Qed.

Lemma lt_trans (x y z : string) : lt x y -> lt y z -> lt x z.
Proof. apply (StrictOrder_Transitive (R := lt)). Qed.

Lemma insert_sorted_sorted (x : string) (l : list string) :
  ~ In x l -> StronglySorted lt l -> StronglySorted lt (Pd.insert_sorted x l).
Proof.
  induction l as [| a l IH]; simpl; intros Hx Hs.
  - constructor; constructor.
  - apply StronglySorted_inv in Hs as [Hs Ha].
    destruct (String_as_OT.compare x a) eqn:Hc.
    + apply compare_Eq_eq in Hc. exfalso. apply Hx. left. symmetry. exact Hc.
    + constructor; [constructor; assumption |].
      constructor; [exact Hc |].
      rewrite Forall_forall in Ha |- *. intros z Hz.
      eapply lt_trans; [exact Hc | auto].
    + constructor.
      * apply IH; [tauto | exact Hs].
      * rewrite Forall_forall in Ha |- *. intros z Hz.
        apply insert_sorted_In in Hz as [-> | Hz]; [| auto].
        apply compare_Gt_lt. exact Hc.
Qed.

Lemma sort_values_sorted (l : list string) :
  NoDup l -> StronglySorted lt (Pd.sort_values l).
Proof.
  induction 1 as [| a l Ha Hnd IH].
  - constructor.
  - change (Pd.sort_values (a :: l)) with (Pd.insert_sorted a (Pd.sort_values l)).
    apply insert_sorted_sorted; [| exact IH].
    intros H. apply Ha. apply sort_values_In. exact H.
Qed.

Lemma categories_In (l : list string) (x : string) :
  In x (Pd.categories l) <-> In x l.
Proof. unfold Pd.categories. rewrite sort_values_In. apply unique_In. Qed.

Lemma categories_sorted (l : list string) :
  StronglySorted lt (Pd.categories l).
Proof. apply sort_values_sorted, unique_NoDup. Qed.

Lemma sorted_NoDup (l : list string) : StronglySorted lt l -> NoDup l.
Proof.
  induction 1 as [| a l _ IH Ha]; constructor; [| exact IH].
  intros Hin. rewrite Forall_forall in Ha.
  exact (lt_irrefl a (Ha a Hin)).
Qed.

(** A strictly ascending list is determined by its elements: the
    categories are the one ascending enumeration of the column's
    distinct values. *)
Lemma sorted_ext (l1 l2 : list string) :
  StronglySorted lt l1 -> StronglySorted lt l2 ->
  (forall x, In x l1 <-> In x l2) -> l1 = l2.
Proof.
  intros H1. revert l2.
  induction H1 as [| a l1 H1 IH Ha]; intros l2 H2 E.
  - destruct l2 as [| b l2]; [reflexivity |].
    exfalso. apply (E b). left. reflexivity.
  - destruct H2 as [| b l2 H2 Hb].
    + exfalso. apply (E a). left. reflexivity.
    + rewrite Forall_forall in Ha, Hb.
      assert (a = b) as <-.
      { destruct (proj1 (E a) (or_introl eq_refl)) as [Hab | Hab]; [auto |].
        destruct (proj2 (E b) (or_introl eq_refl)) as [Hba | Hba]; [auto |].
        exfalso. apply (lt_irrefl a).
        eapply lt_trans; [apply Ha, Hba | apply Hb, Hab]. }
      f_equal. apply IH; [exact H2 |].
      intros x. split; intros Hx.
      * destruct (proj1 (E x) (or_intror Hx)) as [<- | Hx2]; [| exact Hx2].
        exfalso. exact (lt_irrefl a (Ha a Hx)).
      * destruct (proj2 (E x) (or_intror Hx)) as [<- | Hx1]; [| exact Hx1].
        exfalso. exact (lt_irrefl a (Hb a Hx)).
Qed.

End Categories.

(** ** The recompute steps *)

Lemma filter_filter {A} (f g : A -> bool) (l : list A) :
  filter g (filter f l) = filter (fun x => f x && g x) l.
Proof.
  induction l as [| a l IH]; simpl.
  - reflexivity.
  - destruct (f a); simpl; [destruct (g a) |]; rewrite IH; reflexivity.
Qed.

Lemma update_model_type_list_df (s : model_selection) (d : DataFrame) :
  df s = Some d ->
  update_model_type_list s =
    inr (with_model_type_list
           (Pd.categories
              (map col_model_type (select_model_function (model_function s) d))) s).
Proof.
  intros H. unfold update_model_type_list, getattr_df. rewrite H. reflexivity.
Qed.

Lemma update_model_list_df (s : model_selection) (d : DataFrame) :
  df s = Some d ->
  update_model_list s =
    inr (with_model_path_list
           (map col_model_path
              (select_model_type (model_type s)
                 (select_model_function (model_function s) d))) s).
Proof.
  intros H. unfold update_model_list, getattr_df. rewrite H. simpl.
  rewrite map_map. reflexivity.
Qed.

(** ** Construction *)

Lemma rewrite_paths_resolved (dir : string) (rows : DataFrame) :
  Forall (fun r => Py.contains_char "/" (col_model_path r) = true) rows ->
  exists d, rewrite_paths dir rows = inr d /\ Forall2 (resolved dir) rows d.
Proof.
  induction 1 as [| r rows Hr _ (d & Hd & Hres)]; simpl.
  - exists []. split; [reflexivity | constructor].
  - destruct (contains_char_cut "/" _ Hr) as (pre & post & Hcut & Hpre).
    rewrite Hcut, (split_1_first "/" pre post Hpre). simpl.
    rewrite Hd. simpl. eexists. split; [reflexivity |].
    constructor; [| exact Hres].
    repeat split. exists pre, post. repeat split; assumption.
Qed.

Lemma rewrite_paths_malformed (dir : string) (rows : DataFrame) :
  Exists (fun r => Py.contains_char "/" (col_model_path r) = false) rows ->
  rewrite_paths dir rows = inl IndexError.
Proof.
  induction 1 as [r rows Hr | r rows _ IH]; simpl.
  - rewrite (split_1_absent "/" _ Hr). reflexivity.
  - destruct (Py.index _ 1) as [e | tail] eqn:Hidx; simpl.
    + unfold Py.index in Hidx.
      destruct (nth_error _ 1); [discriminate | injection Hidx as <-; reflexivity].
    + rewrite IH. reflexivity.
Qed.

Lemma init_loaded (fs : filesystem) (lib dir : string) (rows : DataFrame) :
  loaded fs lib dir rows ->
  __init__ fs lib dir =
    (d <- rewrite_paths dir rows ;; ret (constructed lib d)).
Proof.
  intros [[-> Hfs] | [-> Hfs]]; unfold __init__, read_csv; simpl;
    rewrite Hfs; simpl;
    destruct (rewrite_paths dir rows) as [e | d]; simpl; try reflexivity;
    unfold update_model_list, getattr_df; simpl; rewrite map_map; reflexivity.
Qed.

Lemma init_unsupported (fs : filesystem) (lib dir : string) :
  lib <> "TensorRT" -> lib <> "Pytorch" ->
  __init__ fs lib dir = inl AttributeError.
Proof.
  intros H1 H2. unfold __init__. simpl.
  apply String.eqb_neq in H1, H2. rewrite H1, H2. reflexivity.
Qed.

Lemma init_inv (fs : filesystem) (lib dir : string) (s : model_selection) :
  __init__ fs lib dir = inr s ->
  exists rows d,
    loaded fs lib dir rows /\ rewrite_paths dir rows = inr d /\
    s = constructed lib d.
Proof.
  intros H.
  destruct (String.eqb_spec lib "TensorRT") as [-> | H1].
  - destruct (fs (os_path_join dir "trt_model_tbl.csv")) as [rows |] eqn:Hfs.
    + assert (L : loaded fs "TensorRT" dir rows) by (left; auto).
      rewrite (init_loaded _ _ _ _ L) in H.
      apply bind_inr in H as (d & Hd & Hs). injection Hs as <-.
      exists rows, d. auto.
    + unfold __init__, read_csv in H. simpl in H. rewrite Hfs in H. discriminate.
  - destruct (String.eqb_spec lib "Pytorch") as [-> | H2].
    + destruct (fs (os_path_join dir "torch_model_tbl.csv")) as [rows |] eqn:Hfs.
      * assert (L : loaded fs "Pytorch" dir rows) by (right; auto).
        rewrite (init_loaded _ _ _ _ L) in H.
        apply bind_inr in H as (d & Hd & Hs). injection Hs as <-.
        exists rows, d. auto.
      * unfold __init__, read_csv in H. simpl in H. rewrite Hfs in H. discriminate.
    + rewrite (init_unsupported fs lib dir H1 H2) in H. discriminate.
Qed.

(** ** Assignments *)

Lemma set_function_df (s : model_selection) (d : DataFrame) (f : string) :
  df s = Some d ->
  set_function f s =
    inr (if model_function s =? f then s
         else with_model_type_list
                (Pd.categories (map col_model_type (select_model_function f d)))
                (with_model_function f s)).
Proof.
  intros H. unfold set_function.
  destruct (String.eqb_spec (model_function s) f) as [<- | Hne].
  - destruct s; reflexivity.
  - unfold update_model. simpl.
    rewrite (update_model_type_list_df _ d) by (destruct s; exact H).
    destruct s; reflexivity.
Qed.

Lemma set_type_df (s : model_selection) (d : DataFrame) (t : string) :
  df s = Some d ->
  set_type t s =
    inr (if model_type s =? t then s
         else with_model_path_list
                (map col_model_path
                   (select_model_type t
                      (select_model_function (model_function s) d)))
                (with_model_type t s)).
Proof.
  intros H. unfold set_type.
  destruct (String.eqb_spec (model_type s) t) as [<- | Hne].
  - destruct s; reflexivity.
  - unfold update_model. simpl.
    rewrite (update_model_list_df _ d) by (destruct s; exact H).
    destruct s; reflexivity.
Qed.

Lemma set_path_total (s : model_selection) (p : string) :
  set_path p s = inr (with_model_path p s).
Proof.
  unfold set_path. destruct (model_path s =? p); [reflexivity |].
  unfold update_model. simpl. destruct s; reflexivity.
Qed.

Lemma run_app (cs1 cs2 : list setter) (s : model_selection) :
  run (cs1 ++ cs2) s = (s' <- run cs1 s ;; run cs2 s').
Proof.
  revert s. induction cs1 as [| c cs1 IH]; intros s; simpl.
  - reflexivity.
  - destruct (call c s) as [e | s1]; simpl; [reflexivity | apply IH].
Qed.

(** ** The cascade invariant *)

Lemma constructed_consistent (lib : string) (d : DataFrame) :
  consistent (constructed lib d) d.
Proof. split; reflexivity. Qed.

Lemma call_consistent (c : setter) (s : model_selection) (d : DataFrame) :
  consistent s d -> exists s', call c s = inr s' /\ consistent s' d.
Proof.
  intros [Hdf Hty]. destruct c as [f | t | p]; simpl.
  - rewrite (set_function_df s d f Hdf). eexists. split; [reflexivity |].
    destruct (model_function s =? f).
    + split; assumption.
    + split; destruct s; simpl in *; [exact Hdf | reflexivity].
  - rewrite (set_type_df s d t Hdf). eexists. split; [reflexivity |].
    destruct (model_type s =? t).
    + split; assumption.
    + split; destruct s; simpl in *; [exact Hdf | exact Hty].
  - rewrite set_path_total. eexists. split; [reflexivity |].
    split; destruct s; simpl in *; [exact Hdf | exact Hty].
Qed.

Lemma run_consistent (cs : list setter) (s : model_selection) (d : DataFrame) :
  consistent s d -> exists s', run cs s = inr s' /\ consistent s' d.
Proof.
  revert s. induction cs as [| c cs IH]; intros s Hs; simpl.
  - exists s. split; [reflexivity | exact Hs].
  - destruct (call_consistent c s d Hs) as (s1 & Hcall & Hs1).
    rewrite Hcall. simpl. apply IH. exact Hs1.
Qed.

Lemma reachable_consistent (s : model_selection) :
  reachable s -> exists d, consistent s d.
Proof.
  intros (fs & lib & dir & s0 & cs & Hinit & Hrun).
  apply init_inv in Hinit as (rows & d & _ & _ & ->).
  destruct (run_consistent cs _ d (constructed_consistent lib d)) as (s' & Hrun' & Hs').
  rewrite Hrun in Hrun'. injection Hrun' as <-.
  exists d. exact Hs'.
Qed.

Lemma set_function_sets (s s' : model_selection) (f : string) :
  set_function f s = inr s' -> model_function s' = f.
Proof.
  unfold set_function.
  destruct (String.eqb_spec (model_function s) f) as [<- | Hne].
  - intros H. injection H as <-. destruct s; reflexivity.
  - unfold update_model. simpl. intros H.
    apply bind_inr in H as (s1 & H1 & H2). injection H2 as <-.
    unfold update_model_type_list in H1.
    apply bind_inr in H1 as (d & _ & H1). injection H1 as <-.
    destruct s; reflexivity.
Qed.

(** Membership in the categories of the filtered type column. *)
Lemma type_options_In (d : DataFrame) (f t : string) :
  In t (Pd.categories (map col_model_type (select_model_function f d))) <->
  exists r, In r d /\ col_model_function r = f /\ col_model_type r = t.
Proof.
  rewrite categories_In, in_map_iff. unfold select_model_function.
  split.
  - intros (r & Ht & Hr). apply filter_In in Hr as [Hin Hf].
    apply String.eqb_eq in Hf. exists r. auto.
  - intros (r & Hin & Hf & Ht). exists r. split; [exact Ht |].
    apply filter_In. split; [exact Hin | apply String.eqb_eq; exact Hf].
Qed.

(** * The claims *)

(** C1 (cascade consistency).  After construction and any sequence of
    assignments, the call sequence runs without raising, the catalog is
    the one built at construction, and [model_type_list] is the strictly
    ascending list of the distinct [model_type] values of the rows whose
    [model_function] is the current function.  When the sequence ends in
    [set_function f], the current function is [f]. *)
Theorem cascade_consistency
    (fs : filesystem) (lib dir : string) (s0 : model_selection) :
  __init__ fs lib dir = inr s0 ->
  forall cs : list setter,
  exists s d,
    run cs s0 = inr s /\ df s0 = Some d /\ df s = Some d /\
    model_type_list s =
      Pd.categories
        (map col_model_type (select_model_function (model_function s) d)) /\
    StronglySorted String_as_OT.lt (model_type_list s) /\
    (forall t, In t (model_type_list s) <->
               exists r, In r d /\ col_model_function r = model_function s /\
                         col_model_type r = t) /\
    (forall cs' f, cs = cs' ++ [SetFunction f] -> model_function s = f).
Proof.
  intros Hinit cs.
  apply init_inv in Hinit as (rows & d & _ & _ & ->).
  destruct (run_consistent cs _ d (constructed_consistent lib d))
    as (s & Hrun & Hdf & Hty).
  exists s, d. repeat split; try assumption.
  - rewrite Hty. apply categories_sorted.
  - rewrite Hty. apply type_options_In.
  - rewrite Hty. apply type_options_In.
  - intros cs' f ->. rewrite run_app in Hrun.
    apply bind_inr in Hrun as (s1 & _ & Hlast). simpl in Hlast.
    apply bind_inr in Hlast as (s2 & Hset & Hret). injection Hret as <-.
    exact (set_function_sets _ _ _ Hset).
Qed.

Lemma cascade_consistency_witness :
  __init__ scenario_fs "TensorRT" "/root"
    = inr (constructed "TensorRT" scenario_catalog) /\
  exists s d,
    run [SetType "CNN"; SetPath "/root/c/m4.trt"; SetFunction "lane following"]
        (constructed "TensorRT" scenario_catalog) = inr s /\
    df (constructed "TensorRT" scenario_catalog) = Some d /\ df s = Some d /\
    model_type_list s =
      Pd.categories
        (map col_model_type (select_model_function (model_function s) d)) /\
    StronglySorted String_as_OT.lt (model_type_list s) /\
    (forall t, In t (model_type_list s) <->
               exists r, In r d /\ col_model_function r = model_function s /\
                         col_model_type r = t) /\
    (forall cs' f,
        [SetType "CNN"; SetPath "/root/c/m4.trt"; SetFunction "lane following"]
          = cs' ++ [SetFunction f] -> model_function s = f).
Proof.
  split; [reflexivity |].
  apply (cascade_consistency scenario_fs "TensorRT" "/root" _ eq_refl).
Defined.

(** C2 (scenario).  Over the four-row catalog with root "/root",
    construction yields the function options lane following and object
    detection, function object detection, type options ResNet and SSD,
    type SSD and the two resolved SSD paths; [set_function "lane following"]
    then yields the type options CNN alone, and [set_type "CNN"] after it
    the one path /root/c/m4.trt. *)
Theorem scenario (fs : filesystem) (lib : string) :
  loaded fs lib "/root" scenario_rows ->
  exists s0 s1 s2,
    __init__ fs lib "/root" = inr s0 /\
    model_function_list s0 = ["lane following"; "object detection"] /\
    model_function s0 = "object detection" /\
    model_type_list s0 = ["ResNet"; "SSD"] /\
    model_type s0 = "SSD" /\
    model_path_list s0 = ["/root/a/m1.trt"; "/root/a/m2.trt"] /\
    set_function "lane following" s0 = inr s1 /\
    model_type_list s1 = ["CNN"] /\
    set_type "CNN" s1 = inr s2 /\
    model_path_list s2 = ["/root/c/m4.trt"].
Proof.
  intros L. rewrite (init_loaded _ _ _ _ L).
  do 3 eexists. repeat split; reflexivity.
Qed.

Lemma scenario_witness :
  loaded scenario_fs "TensorRT" "/root" scenario_rows /\
  exists s0 s1 s2,
    __init__ scenario_fs "TensorRT" "/root" = inr s0 /\
    model_function_list s0 = ["lane following"; "object detection"] /\
    model_function s0 = "object detection" /\
    model_type_list s0 = ["ResNet"; "SSD"] /\
    model_type s0 = "SSD" /\
    model_path_list s0 = ["/root/a/m1.trt"; "/root/a/m2.trt"] /\
    set_function "lane following" s0 = inr s1 /\
    model_type_list s1 = ["CNN"] /\
    set_type "CNN" s1 = inr s2 /\
    model_path_list s2 = ["/root/c/m4.trt"].
Proof.
  assert (L : loaded scenario_fs "TensorRT" "/root" scenario_rows)
    by (left; split; reflexivity).
  split; [exact L | exact (scenario scenario_fs "TensorRT" L)].
Defined.

(** C3 (path resolution at load).  When every row of the loaded table has
    a separator in its path, construction succeeds and each row of the
    catalog is the raw row of the same position with its path replaced
    by the root joined ([os.path.join]) with the text after the first
    separator; the raw path repo/sub/model.onnx under the root
    /data/models becomes /data/models/sub/model.onnx. *)
Theorem path_resolution
    (fs : filesystem) (lib dir : string) (rows : DataFrame) :
  loaded fs lib dir rows ->
  Forall (fun r => Py.contains_char "/" (col_model_path r) = true) rows ->
  exists s d,
    __init__ fs lib dir = inr s /\ df s = Some d /\
    Forall2 (resolved dir) rows d /\
    (forall f t, dir = "/data/models" ->
                 rows = [Row f t "repo/sub/model.onnx"] ->
                 d = [Row f t "/data/models/sub/model.onnx"]).
Proof.
  intros L Hsep.
  destruct (rewrite_paths_resolved dir rows Hsep) as (d & Hd & Hres).
  exists (constructed lib d), d.
  rewrite (init_loaded _ _ _ _ L), Hd.
  repeat split; [exact Hres |].
  intros f t -> ->. simpl in Hd. injection Hd as <-. reflexivity.
Qed.

Lemma path_resolution_witness :
  loaded (single_file "/data/models/torch_model_tbl.csv"
            [Row "road following" "ResNet" "repo/sub/model.onnx"])
         "Pytorch" "/data/models"
         [Row "road following" "ResNet" "repo/sub/model.onnx"] /\
  Forall (fun r => Py.contains_char "/" (col_model_path r) = true)
         [Row "road following" "ResNet" "repo/sub/model.onnx"] /\
  exists s d,
    __init__ (single_file "/data/models/torch_model_tbl.csv"
                [Row "road following" "ResNet" "repo/sub/model.onnx"])
             "Pytorch" "/data/models" = inr s /\
    df s = Some d /\
    Forall2 (resolved "/data/models")
            [Row "road following" "ResNet" "repo/sub/model.onnx"] d /\
    (forall f t, "/data/models" = "/data/models" ->
                 [Row "road following" "ResNet" "repo/sub/model.onnx"]
                   = [Row f t "repo/sub/model.onnx"] ->
                 d = [Row f t "/data/models/sub/model.onnx"]).
Proof.
  assert (L : loaded (single_file "/data/models/torch_model_tbl.csv"
                        [Row "road following" "ResNet" "repo/sub/model.onnx"])
                     "Pytorch" "/data/models"
                     [Row "road following" "ResNet" "repo/sub/model.onnx"])
    by (right; split; reflexivity).
  assert (F : Forall (fun r => Py.contains_char "/" (col_model_path r) = true)
                     [Row "road following" "ResNet" "repo/sub/model.onnx"])
    by (constructor; [reflexivity | constructor]).
  split; [exact L |]. split; [exact F |].
  exact (path_resolution _ _ _ _ L F).
Defined.

(** C4, as the claim states it, fails: over a table with a row whose
    path has no separator the exception raised is Python's IndexError,
    not one named CatalogLoadError. *)
Lemma malformed_row_counterexample :
  exists e,
    __init__ (single_file "/root/trt_model_tbl.csv"
                [Row "object detection" "SSD" "repo/a/m1.trt";
                 Row "object detection" "SSD" "m2.trt"])
             "TensorRT" "/root" = inl e /\
    exn_name e <> "CatalogLoadError".
Proof. exists IndexError. split; [reflexivity | discriminate]. Qed.

(** C4 (malformed row), amended.  When the loaded table holds a row whose
    path is a string without separator, construction raises IndexError,
    from indexing the one-element result of [split], and returns no
    selector. *)
Theorem malformed_row
    (fs : filesystem) (lib dir : string) (rows : DataFrame) :
  loaded fs lib dir rows ->
  Exists (fun r => Py.contains_char "/" (col_model_path r) = false) rows ->
  __init__ fs lib dir = inl IndexError /\
  (forall s, __init__ fs lib dir <> inr s).
Proof.
  intros L Hbad.
  assert (E : __init__ fs lib dir = inl IndexError).
  { rewrite (init_loaded _ _ _ _ L), (rewrite_paths_malformed dir rows Hbad).
    reflexivity. }
  split; [exact E |].
  intros s Hs. rewrite E in Hs. discriminate.
Qed.

Lemma malformed_row_witness :
  loaded (single_file "/root/trt_model_tbl.csv"
            [Row "object detection" "SSD" "repo/a/m1.trt";
             Row "object detection" "SSD" "m2.trt"])
         "TensorRT" "/root"
         [Row "object detection" "SSD" "repo/a/m1.trt";
          Row "object detection" "SSD" "m2.trt"] /\
  Exists (fun r => Py.contains_char "/" (col_model_path r) = false)
         [Row "object detection" "SSD" "repo/a/m1.trt";
          Row "object detection" "SSD" "m2.trt"] /\
  __init__ (single_file "/root/trt_model_tbl.csv"
              [Row "object detection" "SSD" "repo/a/m1.trt";
               Row "object detection" "SSD" "m2.trt"])
           "TensorRT" "/root" = inl IndexError /\
  (forall s, __init__ (single_file "/root/trt_model_tbl.csv"
                         [Row "object detection" "SSD" "repo/a/m1.trt";
                          Row "object detection" "SSD" "m2.trt"])
                      "TensorRT" "/root" <> inr s).
Proof.
  assert (L : loaded (single_file "/root/trt_model_tbl.csv"
                        [Row "object detection" "SSD" "repo/a/m1.trt";
                         Row "object detection" "SSD" "m2.trt"])
                     "TensorRT" "/root"
                     [Row "object detection" "SSD" "repo/a/m1.trt";
                      Row "object detection" "SSD" "m2.trt"])
    by (left; split; reflexivity).
  assert (B : Exists (fun r => Py.contains_char "/" (col_model_path r) = false)
                     [Row "object detection" "SSD" "repo/a/m1.trt";
                      Row "object detection" "SSD" "m2.trt"])
    by (apply Exists_cons_tl, Exists_cons_hd; reflexivity).
  split; [exact L |]. split; [exact B |].
  exact (malformed_row _ _ _ _ L B).
Defined.

(** C5, as the claim states it, fails: over a table without rows the
    construction raises nothing. *)
Lemma empty_catalog_counterexample :
  ~ (exists e : exn,
       __init__ (single_file "/root/trt_model_tbl.csv" []) "TensorRT" "/root"
         = inl e).
Proof. intros [e H]. vm_compute in H. discriminate. Qed.

(** C5 (empty catalog), amended.  Over a table without rows the
    construction raises no error: it returns a selector whose three
    option lists are empty and whose function, type and path are the
    defaults "object detection", "SSD" and the empty string. *)
Theorem empty_catalog (fs : filesystem) (lib dir : string) :
  loaded fs lib dir [] ->
  exists s,
    __init__ fs lib dir = inr s /\
    df s = Some [] /\
    model_function_list s = [] /\ model_type_list s = [] /\
    model_path_list s = [] /\
    model_function s = "object detection" /\ model_type s = "SSD" /\
    model_path s = "".
Proof.
  intros L. rewrite (init_loaded _ _ _ _ L). simpl.
  eexists. repeat split; reflexivity.
Qed.

Lemma empty_catalog_witness :
  loaded (single_file "/root/trt_model_tbl.csv" []) "TensorRT" "/root" [] /\
  exists s,
    __init__ (single_file "/root/trt_model_tbl.csv" []) "TensorRT" "/root"
      = inr s /\
    df s = Some [] /\
    model_function_list s = [] /\ model_type_list s = [] /\
    model_path_list s = [] /\
    model_function s = "object detection" /\ model_type s = "SSD" /\
    model_path s = "".
Proof.
  assert (L : loaded (single_file "/root/trt_model_tbl.csv" [])
                     "TensorRT" "/root" [])
    by (left; split; reflexivity).
  split; [exact L | exact (empty_catalog _ _ _ L)].
Defined.

(** C6 (order and non-deduplication of the path options).  On a selector
    that holds a catalog, [update_model_list] returns without raising and
    leaves in [model_path_list] the paths of exactly the rows whose
    function and type are the current ones, in catalog order, one entry
    per row; function, type and catalog are untouched.  Two rows sharing
    object detection and SSD give a list of length 2, whatever their
    paths. *)
Theorem path_options_order (s : model_selection) (d : DataFrame) :
  df s = Some d ->
  exists s',
    update_model_list s = inr s' /\
    model_path_list s' =
      map col_model_path
        (filter (fun r => (col_model_function r =? model_function s)
                          && (col_model_type r =? model_type s)) d) /\
    model_function s' = model_function s /\ model_type s' = model_type s /\
    df s' = df s /\
    (forall p1 p2,
        d = [Row "object detection" "SSD" p1; Row "object detection" "SSD" p2] ->
        model_function s = "object detection" -> model_type s = "SSD" ->
        model_path_list s' = [p1; p2] /\ length (model_path_list s') = 2).
Proof.
  intros H. rewrite (update_model_list_df s d H).
  eexists. split; [reflexivity |].
  unfold select_model_type, select_model_function. rewrite filter_filter.
  destruct s; simpl in *.
  do 4 (split; [reflexivity |]).
  intros p1 p2 -> -> ->. split; reflexivity.
Qed.

Lemma path_options_order_witness :
  df (constructed "TensorRT"
        [Row "object detection" "SSD" "/root/a/m1.trt";
         Row "object detection" "SSD" "/root/a/m2.trt"])
    = Some [Row "object detection" "SSD" "/root/a/m1.trt";
            Row "object detection" "SSD" "/root/a/m2.trt"] /\
  exists s',
    update_model_list
      (constructed "TensorRT"
         [Row "object detection" "SSD" "/root/a/m1.trt";
          Row "object detection" "SSD" "/root/a/m2.trt"]) = inr s' /\
    length (model_path_list s') = 2.
Proof.
  split; [reflexivity |].
  destruct (path_options_order
              (constructed "TensorRT"
                 [Row "object detection" "SSD" "/root/a/m1.trt";
                  Row "object detection" "SSD" "/root/a/m2.trt"])
              _ eq_refl) as (s' & Hrun & _ & _ & _ & _ & Hlen).
  exists s'. split; [exact Hrun |].
  exact (proj2 (Hlen _ _ eq_refl eq_refl eq_refl)).
Defined.

(** C7 (leaf independence).  For every selector state and every string
    [p], assigning [model_path] returns without raising, stores [p] in
    [model_path] and leaves every other field as it was: function, type,
    the three option lists and the catalog. *)
Theorem leaf_independence (s : model_selection) (p : string) :
  exists s',
    set_path p s = inr s' /\
    model_path s' = p /\
    model_function s' = model_function s /\
    model_type s' = model_type s /\
    model_function_list s' = model_function_list s /\
    model_type_list s' = model_type_list s /\
    model_path_list s' = model_path_list s /\
    df s' = df s /\ core_library s' = core_library s /\
    selected_model_path s' = selected_model_path s /\
    is_selected s' = is_selected s.
Proof.
  exists (with_model_path p s). rewrite set_path_total.
  destruct s; simpl. repeat split.
Qed.

Lemma select_model_function_none (d : DataFrame) (f : string) :
  (forall r, In r d -> col_model_function r <> f) ->
  select_model_function f d = [].
Proof.
  intros H. unfold select_model_function.
  induction d as [| r d IH]; simpl.
  - reflexivity.
  - destruct (String.eqb_spec (col_model_function r) f) as [E | _].
    + exfalso. apply (H r); [left; reflexivity | exact E].
    + apply IH. intros r' Hr'. apply H. right. exact Hr'.
Qed.

(** C8 (permissive setters).  On every observable selector and for every
    string [f], present among the function options or not, assigning
    [model_function] returns without raising, stores [f], and leaves
    [model_type_list] recomputed for [f]: the strictly ascending list
    whose elements are exactly the types of the catalog rows of function
    [f].  When no row has function [f] that list is empty, and this is a
    normal return.  Type, path, the other option lists and the catalog
    are not touched. *)
Theorem permissive_set_function (s : model_selection) (f : string) :
  reachable s ->
  exists s' d,
    set_function f s = inr s' /\ df s = Some d /\ df s' = Some d /\
    model_function s' = f /\
    model_type_list s' =
      Pd.categories (map col_model_type (select_model_function f d)) /\
    StronglySorted String_as_OT.lt (model_type_list s') /\
    (forall t, In t (model_type_list s') <->
               exists r, In r d /\ col_model_function r = f /\
                         col_model_type r = t) /\
    ((forall r, In r d -> col_model_function r <> f) ->
     model_type_list s' = []) /\
    model_type s' = model_type s /\ model_path s' = model_path s /\
    model_function_list s' = model_function_list s /\
    model_path_list s' = model_path_list s.
Proof.
  intros Hr. destruct (reachable_consistent s Hr) as (d & Hdf & Hty).
  pose (L := Pd.categories (map col_model_type (select_model_function f d))).
  assert (HS : StronglySorted String_as_OT.lt L) by apply categories_sorted.
  assert (HM : forall t, In t L <->
            exists r, In r d /\ col_model_function r = f /\ col_model_type r = t)
    by (intros t; apply type_options_In).
  assert (HN : (forall r, In r d -> col_model_function r <> f) -> L = []).
  { intros Hn. unfold L. rewrite (select_model_function_none d f Hn).
    reflexivity. }
  rewrite (set_function_df s d f Hdf).
  destruct (String.eqb_spec (model_function s) f) as [E | _].
  - exists s, d.
    assert (HL : model_type_list s = L) by (rewrite Hty, E; reflexivity).
    rewrite HL.
    exact (conj eq_refl (conj Hdf (conj Hdf (conj E (conj eq_refl
            (conj HS (conj HM (conj HN (conj eq_refl (conj eq_refl
            (conj eq_refl eq_refl))))))))))).
  - exists (with_model_type_list L (with_model_function f s)), d.
    destruct s; simpl in *.
    exact (conj eq_refl (conj Hdf (conj Hdf (conj eq_refl (conj eq_refl
            (conj HS (conj HM (conj HN (conj eq_refl (conj eq_refl
            (conj eq_refl eq_refl))))))))))).
Qed.

Lemma permissive_set_function_witness :
  reachable (constructed "TensorRT" scenario_catalog) /\
  exists s' d,
    set_function "segmentation" (constructed "TensorRT" scenario_catalog)
      = inr s' /\
    df (constructed "TensorRT" scenario_catalog) = Some d /\ df s' = Some d /\
    model_function s' = "segmentation" /\
    model_type_list s' =
      Pd.categories
        (map col_model_type (select_model_function "segmentation" d)) /\
    StronglySorted String_as_OT.lt (model_type_list s') /\
    (forall t, In t (model_type_list s') <->
               exists r, In r d /\ col_model_function r = "segmentation" /\
                         col_model_type r = t) /\
    ((forall r, In r d -> col_model_function r <> "segmentation") ->
     model_type_list s' = []) /\
    model_type s' = model_type (constructed "TensorRT" scenario_catalog) /\
    model_path s' = model_path (constructed "TensorRT" scenario_catalog) /\
    model_function_list s'
      = model_function_list (constructed "TensorRT" scenario_catalog) /\
    model_path_list s'
      = model_path_list (constructed "TensorRT" scenario_catalog).
Proof.
  assert (R : reachable (constructed "TensorRT" scenario_catalog)).
  { exists scenario_fs, "TensorRT", "/root",
      (constructed "TensorRT" scenario_catalog), [].
    split; reflexivity. }
  split; [exact R |].
  exact (permissive_set_function _ "segmentation" R).
Defined.

(** The two versions of [update_model_list] agree unless exactly one row
    matches; on one matching row the older version hands a bare string to
    the [List] trait, which rejects it. *)
Lemma update_model_list_checkpoint_spec (s : model_selection) (d : DataFrame) :
  df s = Some d ->
  match select_model_type (model_type s)
          (select_model_function (model_function s) d) with
  | [_] => update_model_list_checkpoint s = inl TraitError
  | _ => update_model_list_checkpoint s = update_model_list s
  end.
Proof.
  intros H. rewrite (update_model_list_df s d H).
  unfold update_model_list_checkpoint, getattr_df. rewrite H. simpl.
  destruct (select_model_type _ _) as [| r1 [| r2 l]]; simpl.
  - reflexivity.
  - reflexivity.
  - rewrite map_map. reflexivity.
Qed.

(** C9 (the two versions of [update_model_list]), at the failing input.
    In the scenario, with function lane following and type CNN, one row
    matches: the v1 method stores the one-element list of its path, the
    checkpoint method raises TraitError, because [np.squeeze] turns the
    1x1 array into a rank-0 array and [tolist] then returns a bare
    string. *)
Theorem checkpoint_single_row_diverges :
  let s := with_model_type "CNN"
             (with_model_function "lane following"
                (constructed "TensorRT" scenario_catalog)) in
  (exists s', update_model_list s = inr s' /\
              model_path_list s' = ["/root/c/m4.trt"]) /\
  update_model_list_checkpoint s = inl TraitError /\
  update_model_list_checkpoint s <> update_model_list s.
Proof.
  simpl. split; [| split].
  - eexists. split; reflexivity.
  - reflexivity.
  - vm_compute. discriminate.
Qed.

(** C10 (unsupported tag).  For every tag other than TensorRT and
    Pytorch, and whatever the files hold, construction raises
    AttributeError and returns no selector: no table is read, so the
    first read of [self.df], in the loop that rewrites the paths, finds
    the attribute unassigned.  The failure is not of the catalog-load
    kind. *)
Theorem unsupported_core_library (fs : filesystem) (lib dir : string) :
  lib <> "TensorRT" -> lib <> "Pytorch" ->
  __init__ fs lib dir = inl AttributeError /\
  is_catalog_load_error AttributeError = false /\
  getattr_df (HasTraits_init lib) = inl AttributeError /\
  (forall s, __init__ fs lib dir <> inr s) /\
  (forall fs', __init__ fs' lib dir = __init__ fs lib dir).
Proof.
  intros H1 H2.
  pose proof (init_unsupported fs lib dir H1 H2) as E.
  repeat split; try assumption.
  - intros s Hs. rewrite E in Hs. discriminate.
  - intros fs'. rewrite E. apply init_unsupported; assumption.
Qed.

Lemma unsupported_core_library_witness :
  "ONNX" <> "TensorRT" /\ "ONNX" <> "Pytorch" /\
  __init__ scenario_fs "ONNX" "/root" = inl AttributeError /\
  is_catalog_load_error AttributeError = false /\
  getattr_df (HasTraits_init "ONNX") = inl AttributeError /\
  (forall s, __init__ scenario_fs "ONNX" "/root" <> inr s) /\
  (forall fs', __init__ fs' "ONNX" "/root" = __init__ scenario_fs "ONNX" "/root").
Proof.
  assert (H1 : "ONNX" <> "TensorRT") by discriminate.
  assert (H2 : "ONNX" <> "Pytorch") by discriminate.
  split; [exact H1 |]. split; [exact H2 |].
  exact (unsupported_core_library scenario_fs "ONNX" "/root" H1 H2).
Defined.

(** * Further properties of the code *)

(** ** Outcomes of construction *)

Lemma all_separated_Forall (rows : DataFrame) :
  all_separated rows = true <->
  Forall (fun r => Py.contains_char "/" (col_model_path r) = true) rows.
Proof.
  unfold all_separated. rewrite forallb_forall, Forall_forall. tauto.
Qed.

Lemma not_all_separated_Exists (rows : DataFrame) :
  all_separated rows = false ->
  Exists (fun r => Py.contains_char "/" (col_model_path r) = false) rows.
Proof.
  unfold all_separated. induction rows as [| r rows IH]; simpl; intros H.
  - discriminate.
  - destruct (Py.contains_char "/" (col_model_path r)) eqn:Hr; simpl in H.
    + apply Exists_cons_tl, IH, H.
    + apply Exists_cons_hd, Hr.
Qed.

(** X1.  For a supported tag whose table file does not exist,
    construction raises FileNotFoundError. *)
Theorem missing_backing_file (fs : filesystem) (lib dir : string) :
  (lib = "TensorRT" /\ fs (os_path_join dir "trt_model_tbl.csv") = None) \/
  (lib = "Pytorch" /\ fs (os_path_join dir "torch_model_tbl.csv") = None) ->
  __init__ fs lib dir = inl FileNotFoundError.
Proof.
  intros [[-> H] | [-> H]]; unfold __init__, read_csv; simpl; rewrite H;
    reflexivity.
Qed.

Lemma missing_backing_file_witness :
  (("Pytorch" = "TensorRT" /\
    scenario_fs (os_path_join "/root" "trt_model_tbl.csv") = None) \/
   ("Pytorch" = "Pytorch" /\
    scenario_fs (os_path_join "/root" "torch_model_tbl.csv") = None)) /\
  __init__ scenario_fs "Pytorch" "/root" = inl FileNotFoundError.
Proof.
  assert (H : ("Pytorch" = "TensorRT" /\
               scenario_fs (os_path_join "/root" "trt_model_tbl.csv") = None) \/
              ("Pytorch" = "Pytorch" /\
               scenario_fs (os_path_join "/root" "torch_model_tbl.csv") = None))
    by (right; split; reflexivity).
  split; [exact H | exact (missing_backing_file scenario_fs "Pytorch" "/root" H)].
Defined.

(** X2.  Construction returns a selector exactly when the tag is
    supported, its table file exists and every row of the table has a
    separator in its path. *)
Theorem construction_succeeds_iff (fs : filesystem) (lib dir : string) :
  (exists s, __init__ fs lib dir = inr s) <->
  (exists rows, loaded fs lib dir rows /\ all_separated rows = true).
Proof.
  split.
  - intros (s & H).
    destruct (init_inv _ _ _ _ H) as (rows & d & L & Hd & _).
    exists rows. split; [exact L |].
    destruct (all_separated rows) eqn:Hs; [reflexivity |].
    rewrite (rewrite_paths_malformed dir rows (not_all_separated_Exists _ Hs))
      in Hd.
    discriminate.
  - intros (rows & L & Hs).
    apply all_separated_Forall in Hs.
    destruct (rewrite_paths_resolved dir rows Hs) as (d & Hd & _).
    exists (constructed lib d).
    rewrite (init_loaded _ _ _ _ L), Hd. reflexivity.
Qed.

Lemma update_model_list_outcome (s : model_selection) :
  update_model_list s = inl AttributeError \/ exists s', update_model_list s = inr s'.
Proof.
  destruct (df s) as [d |] eqn:H.
  - right. rewrite (update_model_list_df s d H). eexists. reflexivity.
  - left. unfold update_model_list, getattr_df. rewrite H. reflexivity.
Qed.

Lemma update_model_type_list_outcome (s : model_selection) :
  update_model_type_list s = inl AttributeError \/
  exists s', update_model_type_list s = inr s'.
Proof.
  destruct (df s) as [d |] eqn:H.
  - right. rewrite (update_model_type_list_df s d H). eexists. reflexivity.
  - left. unfold update_model_type_list, getattr_df. rewrite H. reflexivity.
Qed.

Lemma call_outcome (c : setter) (s : model_selection) :
  call c s = inl AttributeError \/ exists s', call c s = inr s'.
Proof.
  destruct (df s) as [d |] eqn:H.
  - right. destruct c as [f | t | p]; simpl.
    + rewrite (set_function_df s d f H). eexists. reflexivity.
    + rewrite (set_type_df s d t H). eexists. reflexivity.
    + rewrite set_path_total. eexists. reflexivity.
  - destruct c as [f | t | p]; simpl.
    + unfold set_function. destruct (model_function s =? f).
      * right. eexists. reflexivity.
      * left. destruct s; simpl in H; subst. reflexivity.
    + unfold set_type. destruct (model_type s =? t).
      * right. eexists. reflexivity.
      * left. destruct s; simpl in H; subst. reflexivity.
    + right. rewrite set_path_total. eexists. reflexivity.
Qed.

(** X3.  With string values, the only ones the Unicode traits accept,
    the v1 class never raises TraitError: not at construction, and not
    in any sequence of assignments of strings to [model_function],
    [model_type] and [model_path] on any object, because the value it
    gives the [List] trait is always a list. *)
Theorem v1_never_TraitError :
  (forall fs lib dir, __init__ fs lib dir <> inl TraitError) /\
  (forall cs s, run cs s <> inl TraitError).
Proof.
  split.
  - intros fs lib dir H.
    destruct (String.eqb_spec lib "TensorRT") as [-> | H1];
      [| destruct (String.eqb_spec lib "Pytorch") as [-> | H2]].
    + destruct (fs (os_path_join dir "trt_model_tbl.csv")) as [rows |] eqn:Hfs.
      * assert (L : loaded fs "TensorRT" dir rows) by (left; auto).
        rewrite (init_loaded _ _ _ _ L) in H.
        destruct (all_separated rows) eqn:Hs.
        -- apply all_separated_Forall in Hs.
           destruct (rewrite_paths_resolved dir rows Hs) as (d & Hd & _).
           rewrite Hd in H. discriminate.
        -- rewrite (rewrite_paths_malformed dir rows
                      (not_all_separated_Exists _ Hs)) in H.
           discriminate.
      * rewrite (missing_backing_file fs "TensorRT" dir) in H by (left; auto).
        discriminate.
    + destruct (fs (os_path_join dir "torch_model_tbl.csv")) as [rows |] eqn:Hfs.
      * assert (L : loaded fs "Pytorch" dir rows) by (right; auto).
        rewrite (init_loaded _ _ _ _ L) in H.
        destruct (all_separated rows) eqn:Hs.
        -- apply all_separated_Forall in Hs.
           destruct (rewrite_paths_resolved dir rows Hs) as (d & Hd & _).
           rewrite Hd in H. discriminate.
        -- rewrite (rewrite_paths_malformed dir rows
                      (not_all_separated_Exists _ Hs)) in H.
           discriminate.
      * rewrite (missing_backing_file fs "Pytorch" dir) in H by (right; auto).
        discriminate.
    + rewrite (init_unsupported fs lib dir H1 H2) in H. discriminate.
  - induction cs as [| c cs IH]; intros s H; simpl in H.
    + discriminate.
    + destruct (call_outcome c s) as [E | (s' & E)]; rewrite E in H; simpl in H.
      * discriminate.
      * exact (IH s' H).
Qed.

(** X4.  Construction never selects from the catalog: on every
    constructed selector the function, type and path are the trait
    defaults "object detection", "SSD" and the empty string; when the
    catalog has no row of function "object detection", the type options
    and the path options are empty, whatever else the catalog holds. *)
Theorem construction_keeps_defaults
    (fs : filesystem) (lib dir : string) (s : model_selection) :
  __init__ fs lib dir = inr s ->
  model_function s = "object detection" /\ model_type s = "SSD" /\
  model_path s = "" /\ core_library s = lib /\
  exists d,
    df s = Some d /\
    model_path_list s = map col_model_path (default_rows d) /\
    ((forall r, In r d -> col_model_function r <> "object detection") ->
     model_type_list s = [] /\ model_path_list s = []).
Proof.
  intros H. apply init_inv in H as (rows & d & _ & _ & ->). simpl.
  repeat split. exists d. repeat split.
  - rewrite (select_model_function_none d _ H). reflexivity.
  - rewrite (select_model_function_none d _ H). reflexivity.
Qed.

Lemma construction_keeps_defaults_witness :
  __init__ (single_file "/root/trt_model_tbl.csv"
              [Row "lane following" "CNN" "repo/c/m4.trt"])
           "TensorRT" "/root"
    = inr (constructed "TensorRT" [Row "lane following" "CNN" "/root/c/m4.trt"]) /\
  model_function (constructed "TensorRT" [Row "lane following" "CNN" "/root/c/m4.trt"])
    = "object detection" /\
  model_function_list
    (constructed "TensorRT" [Row "lane following" "CNN" "/root/c/m4.trt"])
    = ["lane following"].
Proof.
  split; [reflexivity |].
  split; [| reflexivity].
  exact (proj1 (construction_keeps_defaults
                  (single_file "/root/trt_model_tbl.csv"
                     [Row "lane following" "CNN" "repo/c/m4.trt"])
                  "TensorRT" "/root" _ eq_refl)).
Defined.

(** ** What the assignments keep *)

Lemma paths_of_selection (d : DataFrame) (f t p : string) :
  In p (map col_model_path (select_model_type t (select_model_function f d))) ->
  exists r, In r d /\ col_model_path r = p /\ col_model_type r = t.
Proof.
  rewrite in_map_iff. intros (r & Hp & Hr).
  unfold select_model_type, select_model_function in Hr.
  apply filter_In in Hr as [Hr Ht]. apply filter_In in Hr as [Hr _].
  apply String.eqb_eq in Ht. exists r. auto.
Qed.

Lemma call_keeps (c : setter) (s : model_selection) (d : DataFrame) :
  df s = Some d ->
  exists s',
    call c s = inr s' /\ df s' = Some d /\
    model_function_list s' = model_function_list s /\
    (path_options_typed s d -> path_options_typed s' d).
Proof.
  intros H. destruct c as [f | t | p]; simpl.
  - rewrite (set_function_df s d f H). eexists. split; [reflexivity |].
    destruct (model_function s =? f); [auto |].
    destruct s; simpl in *. auto.
  - rewrite (set_type_df s d t H). eexists. split; [reflexivity |].
    destruct (model_type s =? t); [auto |].
    destruct s; simpl in *. repeat split; try assumption.
    intros _ p Hp. exact (paths_of_selection d _ t p Hp).
  - rewrite set_path_total. eexists. split; [reflexivity |].
    destruct s; simpl in *. auto.
Qed.

Lemma run_keeps (cs : list setter) (s : model_selection) (d : DataFrame) :
  df s = Some d ->
  exists s',
    run cs s = inr s' /\ df s' = Some d /\
    model_function_list s' = model_function_list s /\
    (path_options_typed s d -> path_options_typed s' d).
Proof.
  revert s. induction cs as [| c cs IH]; intros s H; simpl.
  - exists s. auto.
  - destruct (call_keeps c s d H) as (s1 & E & H1 & Hf & Hp).
    rewrite E. simpl.
    destruct (IH s1 H1) as (s' & E' & H' & Hf' & Hp').
    exists s'. repeat split; try assumption.
    + rewrite Hf'. exact Hf.
    + intros Hs. exact (Hp' (Hp Hs)).
Qed.

(** X5.  The function options are fixed at construction: after any
    sequence of assignments [model_function_list] is still the strictly
    ascending list of the distinct [model_function] values of the whole
    catalog. *)
Theorem function_options_fixed
    (fs : filesystem) (lib dir : string) (s0 : model_selection) :
  __init__ fs lib dir = inr s0 ->
  forall cs : list setter,
  exists s d,
    run cs s0 = inr s /\ df s = Some d /\
    model_function_list s = model_function_list s0 /\
    model_function_list s = Pd.categories (map col_model_function d) /\
    StronglySorted String_as_OT.lt (model_function_list s) /\
    (forall f, In f (model_function_list s) <->
               exists r, In r d /\ col_model_function r = f).
Proof.
  intros Hinit cs.
  apply init_inv in Hinit as (rows & d & _ & _ & ->).
  destruct (run_keeps cs (constructed lib d) d eq_refl) as (s & E & Hdf & Hf & _).
  exists s, d. rewrite Hf. simpl.
  split; [exact E |]. split; [exact Hdf |]. split; [reflexivity |].
  split; [reflexivity |]. split; [apply categories_sorted |].
  intros f. rewrite categories_In, in_map_iff.
  split; intros (r & A & B); exists r; auto.
Qed.

Lemma function_options_fixed_witness :
  __init__ scenario_fs "TensorRT" "/root"
    = inr (constructed "TensorRT" scenario_catalog) /\
  exists s d,
    run [SetFunction "lane following"; SetType "CNN"]
        (constructed "TensorRT" scenario_catalog) = inr s /\
    df s = Some d /\
    model_function_list s
      = model_function_list (constructed "TensorRT" scenario_catalog) /\
    model_function_list s = Pd.categories (map col_model_function d) /\
    StronglySorted String_as_OT.lt (model_function_list s) /\
    (forall f, In f (model_function_list s) <->
               exists r, In r d /\ col_model_function r = f).
Proof.
  split; [reflexivity |].
  apply (function_options_fixed scenario_fs "TensorRT" "/root" _ eq_refl).
Defined.

(** X6.  In every state reached from construction, each entry of
    [model_path_list] is the path of a catalog row whose type is the
    current [model_type] (its function may be an earlier one). *)
Theorem path_options_of_current_type
    (fs : filesystem) (lib dir : string) (s0 : model_selection) :
  __init__ fs lib dir = inr s0 ->
  forall cs : list setter,
  exists s d,
    run cs s0 = inr s /\ df s = Some d /\
    forall p, In p (model_path_list s) ->
              exists r, In r d /\ col_model_path r = p /\
                        col_model_type r = model_type s.
Proof.
  intros Hinit cs.
  apply init_inv in Hinit as (rows & d & _ & _ & ->).
  destruct (run_keeps cs (constructed lib d) d eq_refl) as (s & E & Hdf & _ & Hp).
  exists s, d. split; [exact E |]. split; [exact Hdf |].
  apply Hp. intros p Hin. exact (paths_of_selection d _ _ p Hin).
Qed.

Lemma path_options_of_current_type_witness :
  __init__ scenario_fs "TensorRT" "/root"
    = inr (constructed "TensorRT" scenario_catalog) /\
  exists s d,
    run [SetType "ResNet"; SetFunction "lane following"]
        (constructed "TensorRT" scenario_catalog) = inr s /\
    df s = Some d /\
    forall p, In p (model_path_list s) ->
              exists r, In r d /\ col_model_path r = p /\
                        col_model_type r = model_type s.
Proof.
  split; [reflexivity |].
  apply (path_options_of_current_type scenario_fs "TensorRT" "/root" _ eq_refl).
Defined.

(** ** How the assignments compose *)

(** X7.  Choosing a function and then a type different from the current
    one leaves the selector fully cascaded: the type options are those
    of the function, and the path options are the paths of the rows of
    that function and that type, in catalog order. *)
Theorem set_function_then_set_type (s : model_selection) (f t : string) :
  reachable s -> t <> model_type s ->
  exists s2 d,
    run [SetFunction f; SetType t] s = inr s2 /\ df s2 = Some d /\
    model_function s2 = f /\ model_type s2 = t /\
    model_type_list s2 =
      Pd.categories (map col_model_type (select_model_function f d)) /\
    model_path_list s2 =
      map col_model_path
        (filter (fun r => (col_model_function r =? f) && (col_model_type r =? t)) d).
Proof.
  intros Hr Ht. destruct (reachable_consistent s Hr) as (d & Hdf & Hty).
  assert (Hne : (model_type s =? t) = false)
    by (apply String.eqb_neq; congruence).
  exists (with_model_path_list
            (map col_model_path (select_model_type t (select_model_function f d)))
            (with_model_type t
               (with_model_type_list
                  (Pd.categories (map col_model_type (select_model_function f d)))
                  (with_model_function f s)))), d.
  split.
  - simpl. rewrite (set_function_df s d f Hdf).
    destruct (String.eqb_spec (model_function s) f) as [<- | Hf]; simpl.
    + rewrite (set_type_df s d t Hdf), Hne.
      rewrite <- Hty. destruct s; reflexivity.
    + rewrite (set_type_df _ d t) by (destruct s; exact Hdf).
      destruct s; simpl in *. rewrite Hne. reflexivity.
  - unfold select_model_type, select_model_function. rewrite filter_filter.
    destruct s; simpl in *. auto.
Qed.

Lemma set_function_then_set_type_witness :
  reachable (constructed "TensorRT" scenario_catalog) /\
  "CNN" <> model_type (constructed "TensorRT" scenario_catalog) /\
  exists s2 d,
    run [SetFunction "lane following"; SetType "CNN"]
        (constructed "TensorRT" scenario_catalog) = inr s2 /\
    df s2 = Some d /\
    model_function s2 = "lane following" /\ model_type s2 = "CNN" /\
    model_type_list s2 =
      Pd.categories
        (map col_model_type (select_model_function "lane following" d)) /\
    model_path_list s2 =
      map col_model_path
        (filter (fun r => (col_model_function r =? "lane following")
                          && (col_model_type r =? "CNN")) d).
Proof.
  assert (R : reachable (constructed "TensorRT" scenario_catalog)).
  { exists scenario_fs, "TensorRT", "/root",
      (constructed "TensorRT" scenario_catalog), [].
    split; reflexivity. }
  assert (N : "CNN" <> model_type (constructed "TensorRT" scenario_catalog))
    by discriminate.
  split; [exact R |]. split; [exact N |].
  exact (set_function_then_set_type _ "lane following" "CNN" R N).
Defined.

(** X8.  Assigning the type its current value raises no notification:
    after a change of function, re-selecting the same type leaves
    [model_path_list] as it was, the paths of the earlier function. *)
Theorem reselecting_type_keeps_paths (s : model_selection) (f : string) :
  reachable s ->
  exists s1,
    run [SetFunction f; SetType (model_type s)] s = inr s1 /\
    model_function s1 = f /\ model_type s1 = model_type s /\
    model_path_list s1 = model_path_list s.
Proof.
  intros Hr. destruct (reachable_consistent s Hr) as (d & Hdf & _).
  simpl. rewrite (set_function_df s d f Hdf).
  destruct (String.eqb_spec (model_function s) f) as [E | _]; simpl.
  - rewrite (set_type_df s d _ Hdf), String.eqb_refl.
    exists s. auto.
  - rewrite (set_type_df _ d (model_type s)) by (destruct s; exact Hdf).
    eexists. split; [reflexivity |].
    destruct s; simpl in *. rewrite String.eqb_refl. simpl. auto.
Qed.

Lemma reselecting_type_keeps_paths_witness :
  reachable (constructed "TensorRT" scenario_catalog) /\
  exists s1,
    run [SetFunction "lane following"; SetType "SSD"]
        (constructed "TensorRT" scenario_catalog) = inr s1 /\
    model_function s1 = "lane following" /\
    model_path_list s1 = ["/root/a/m1.trt"; "/root/a/m2.trt"].
Proof.
  assert (R : reachable (constructed "TensorRT" scenario_catalog)).
  { exists scenario_fs, "TensorRT", "/root",
      (constructed "TensorRT" scenario_catalog), [].
    split; reflexivity. }
  split; [exact R |].
  destruct (reselecting_type_keeps_paths _ "lane following" R)
    as (s1 & E & Hf & _ & Hp).
  exists s1. split; [exact E |]. split; [exact Hf | exact Hp].
Defined.

(** X9.  Of two function assignments in a row the last one decides: on
    every state reached from construction, assigning [f] and then [g]
    gives the same object as assigning [g] alone. *)
Theorem set_function_last_wins (s : model_selection) (f g : string) :
  reachable s ->
  run [SetFunction f; SetFunction g] s = run [SetFunction g] s.
Proof.
  intros Hr. destruct (reachable_consistent s Hr) as (d & Hdf & Hty).
  simpl. rewrite (set_function_df s d f Hdf), (set_function_df s d g Hdf).
  destruct (String.eqb_spec (model_function s) f) as [Ef | Nf]; simpl.
  - rewrite (set_function_df s d g Hdf). reflexivity.
  - rewrite (set_function_df _ d g) by (destruct s; exact Hdf).
    destruct s; simpl in *.
    destruct (String.eqb_spec f g) as [-> | Nfg]; simpl.
    + apply String.eqb_neq in Nf. rewrite Nf. reflexivity.
    + destruct (String.eqb_spec model_function0 g) as [-> | Ng]; simpl.
      * rewrite Hty. reflexivity.
      * reflexivity.
Qed.

Lemma set_function_last_wins_witness :
  reachable (constructed "TensorRT" scenario_catalog) /\
  run [SetFunction "lane following"; SetFunction "object detection"]
      (constructed "TensorRT" scenario_catalog)
    = run [SetFunction "object detection"]
          (constructed "TensorRT" scenario_catalog).
Proof.
  assert (R : reachable (constructed "TensorRT" scenario_catalog)).
  { exists scenario_fs, "TensorRT", "/root",
      (constructed "TensorRT" scenario_catalog), [].
    split; reflexivity. }
  split; [exact R |].
  exact (set_function_last_wins _ "lane following" "object detection" R).
Defined.

(** ** Where the resolved paths lie *)

Lemma prefix_app (a b : string) : String.prefix a (a ++ b)%string = true.
Proof.
  induction a as [| c a IH]; simpl.
  - destruct b; reflexivity.
  - destruct (ascii_dec c c) as [_ | N]; [exact IH | contradiction].
Qed.

Lemma os_path_join_relative_prefix (a b : string) :
  Py.startswith "/" b = false -> Py.startswith a (os_path_join a b) = true.
Proof.
  intros H. unfold os_path_join, Py.startswith in *. rewrite H.
  destruct ((a =? "") || Py.endswith_char "/" a); apply prefix_app.
Qed.

Lemma tail_relative_separated (raw : string) :
  tail_relative raw -> Py.contains_char "/" raw = true.
Proof.
  intros (pre & post & -> & Hpre & _).
  clear Hpre. induction pre as [| c pre IH].
  - reflexivity.
  - change (Py.contains_char "/" (String c pre ++ "/" ++ post)%string)
      with (Ascii.eqb c "/" || Py.contains_char "/" (pre ++ "/" ++ post)%string).
    rewrite IH. apply orb_true_r.
Qed.

(** X10.  When in every raw path the text after the first separator is
    relative, every path of the constructed catalog, and so every path
    option, starts with the root directory. *)
Theorem resolved_paths_under_root
    (fs : filesystem) (lib dir : string) (rows : DataFrame) :
  loaded fs lib dir rows ->
  Forall (fun r => tail_relative (col_model_path r)) rows ->
  exists s d,
    __init__ fs lib dir = inr s /\ df s = Some d /\
    Forall (fun r => Py.startswith dir (col_model_path r) = true) d /\
    Forall (fun p => Py.startswith dir p = true) (model_path_list s).
Proof.
  intros L Hrel.
  assert (Hsep : Forall (fun r => Py.contains_char "/" (col_model_path r) = true) rows).
  { eapply Forall_impl; [| exact Hrel].
    intros r. apply tail_relative_separated. }
  destruct (rewrite_paths_resolved dir rows Hsep) as (d & Hd & Hres).
  assert (Hunder : Forall (fun r => Py.startswith dir (col_model_path r) = true) d).
  { clear Hd L Hsep. induction Hres as [| r r' rows d Hr _ IH].
    - constructor.
    - apply Forall_cons_iff in Hrel as [Hrel1 Hrel2].
      constructor; [| exact (IH Hrel2)].
      destruct Hr as (_ & _ & pre & post & Hcut & Hpre & ->).
      destruct Hrel1 as (pre' & post' & Hcut' & Hpre' & Hpost').
      rewrite Hcut in Hcut'.
      destruct (cut_unique "/" pre pre' post post' Hpre Hpre' Hcut') as [_ ->].
      apply os_path_join_relative_prefix. exact Hpost'. }
  exists (constructed lib d), d.
  rewrite (init_loaded _ _ _ _ L), Hd.
  split; [reflexivity |]. split; [reflexivity |]. split; [exact Hunder |].
  simpl. rewrite Forall_forall in *. intros p Hp.
  apply in_map_iff in Hp as (r & <- & Hr).
  unfold select_model_type, select_model_function in Hr.
  apply filter_In in Hr as [Hr _]. apply filter_In in Hr as [Hr _].
  exact (Hunder r Hr).
Qed.

Lemma resolved_paths_under_root_witness :
  loaded scenario_fs "TensorRT" "/root" scenario_rows /\
  Forall (fun r => tail_relative (col_model_path r)) scenario_rows /\
  exists s d,
    __init__ scenario_fs "TensorRT" "/root" = inr s /\ df s = Some d /\
    Forall (fun r => Py.startswith "/root" (col_model_path r) = true) d /\
    Forall (fun p => Py.startswith "/root" p = true) (model_path_list s).
Proof.
  assert (L : loaded scenario_fs "TensorRT" "/root" scenario_rows)
    by (left; split; reflexivity).
  assert (F : Forall (fun r => tail_relative (col_model_path r)) scenario_rows).
  { repeat constructor.
    - exists "repo", "a/m1.trt". repeat split.
    - exists "repo", "a/m2.trt". repeat split.
    - exists "repo", "b/m3.trt". repeat split.
    - exists "repo", "c/m4.trt". repeat split. }
  split; [exact L |]. split; [exact F |].
  exact (resolved_paths_under_root _ _ _ _ L F).
Defined.

(** ** The older copy against v1 *)

(** X11.  Unless exactly one row matches the current function and type,
    the [update_model_list] of the older copy returns what the v1 method
    returns. *)
Theorem update_model_list_versions_agree (s : model_selection) (d : DataFrame) :
  df s = Some d ->
  length (select_model_type (model_type s)
            (select_model_function (model_function s) d)) <> 1 ->
  update_model_list_checkpoint s = update_model_list s.
Proof.
  intros H Hlen.
  pose proof (update_model_list_checkpoint_spec s d H) as Hspec.
  destruct (select_model_type _ _) as [| r1 [| r2 l]]; simpl in Hlen;
    [exact Hspec | congruence | exact Hspec].
Qed.

Lemma update_model_list_versions_agree_witness :
  df (constructed "TensorRT" scenario_catalog) = Some scenario_catalog /\
  length (select_model_type (model_type (constructed "TensorRT" scenario_catalog))
            (select_model_function
               (model_function (constructed "TensorRT" scenario_catalog))
               scenario_catalog)) <> 1 /\
  update_model_list_checkpoint (constructed "TensorRT" scenario_catalog)
    = update_model_list (constructed "TensorRT" scenario_catalog).
Proof.
  assert (N : length (select_model_type
                        (model_type (constructed "TensorRT" scenario_catalog))
                        (select_model_function
                           (model_function (constructed "TensorRT" scenario_catalog))
                           scenario_catalog)) <> 1)
    by (simpl; discriminate).
  split; [reflexivity |]. split; [exact N |].
  exact (update_model_list_versions_agree
           (constructed "TensorRT" scenario_catalog) scenario_catalog eq_refl N).
Defined.

Lemma checkpoint_init_loaded (fs : filesystem) (lib : string) (rows : DataFrame) :
  loaded fs lib MODEL_REPO_DIR_DOCKER rows ->
  Checkpoint.__init__ fs lib =
    (d <- rewrite_paths MODEL_REPO_DIR_DOCKER rows ;;
     update_model_list_checkpoint (before_model_list lib d)).
Proof.
  intros [[-> Hfs] | [-> Hfs]]; unfold Checkpoint.__init__, read_csv; simpl;
    rewrite Hfs; simpl;
    destruct (rewrite_paths MODEL_REPO_DIR_DOCKER rows) as [e | d]; simpl;
    try reflexivity;
    destruct (update_model_list_checkpoint _) as [e | s']; reflexivity.
Qed.

Lemma resolved_default_rows (dir : string) (rows d : DataFrame) :
  Forall2 (resolved dir) rows d ->
  length (default_rows d) = length (default_rows rows).
Proof.
  unfold default_rows, select_model_type, select_model_function.
  induction 1 as [| r r' rows d (Hf & Ht & _) _ IH]; simpl.
  - reflexivity.
  - rewrite Hf.
    destruct (col_model_function r =? "object detection"); simpl; [| exact IH].
    rewrite Ht.
    destruct (col_model_type r =? "SSD"); simpl; [f_equal |]; exact IH.
Qed.

Lemma before_model_list_v1 (lib : string) (d : DataFrame) :
  update_model_list (before_model_list lib d) = inr (constructed lib d).
Proof.
  rewrite (update_model_list_df _ d) by reflexivity. reflexivity.
Qed.

(** X12.  The constructor of the older copy cannot build a selector over
    a well-formed table in which exactly one row has function "object
    detection" and type "SSD": it raises TraitError, where the v1
    constructor given the same directory succeeds. *)
Theorem checkpoint_init_single_default_row
    (fs : filesystem) (lib : string) (rows : DataFrame) :
  loaded fs lib MODEL_REPO_DIR_DOCKER rows ->
  all_separated rows = true ->
  length (default_rows rows) = 1 ->
  Checkpoint.__init__ fs lib = inl TraitError /\
  exists s, __init__ fs lib MODEL_REPO_DIR_DOCKER = inr s /\
            length (model_path_list s) = 1.
Proof.
  intros L Hsep Hone.
  apply all_separated_Forall in Hsep.
  destruct (rewrite_paths_resolved MODEL_REPO_DIR_DOCKER rows Hsep)
    as (d & Hd & Hres).
  rewrite <- (resolved_default_rows _ _ _ Hres) in Hone.
  split.
  - rewrite (checkpoint_init_loaded _ _ _ L), Hd. simpl.
    pose proof (update_model_list_checkpoint_spec (before_model_list lib d) d eq_refl)
      as Hspec.
    simpl in Hspec. fold (default_rows d) in Hspec.
    destruct (default_rows d) as [| r1 [| r2 l]]; simpl in Hone;
      [discriminate | exact Hspec | discriminate].
  - exists (constructed lib d).
    rewrite (init_loaded _ _ _ _ L), Hd.
    split; [reflexivity |].
    simpl. fold (default_rows d). rewrite length_map. exact Hone.
Qed.

Lemma checkpoint_init_single_default_row_witness :
  loaded (single_file "/workspace/model_repo/trt_model_tbl.csv"
            [Row "object detection" "SSD" "repo/a/m1.trt";
             Row "lane following" "CNN" "repo/c/m4.trt"])
         "TensorRT" MODEL_REPO_DIR_DOCKER
         [Row "object detection" "SSD" "repo/a/m1.trt";
          Row "lane following" "CNN" "repo/c/m4.trt"] /\
  Checkpoint.__init__
    (single_file "/workspace/model_repo/trt_model_tbl.csv"
       [Row "object detection" "SSD" "repo/a/m1.trt";
        Row "lane following" "CNN" "repo/c/m4.trt"])
    "TensorRT" = inl TraitError.
Proof.
  assert (L : loaded (single_file "/workspace/model_repo/trt_model_tbl.csv"
                        [Row "object detection" "SSD" "repo/a/m1.trt";
                         Row "lane following" "CNN" "repo/c/m4.trt"])
                     "TensorRT" MODEL_REPO_DIR_DOCKER
                     [Row "object detection" "SSD" "repo/a/m1.trt";
                      Row "lane following" "CNN" "repo/c/m4.trt"])
    by (left; split; reflexivity).
  split; [exact L |].
  exact (proj1 (checkpoint_init_single_default_row _ _ _ L eq_refl eq_refl)).
Defined.

(** X13.  Whenever the table of the tag, if there is one, does not have
    exactly one row of function "object detection" and type "SSD", the
    constructor of the older copy behaves as the v1 constructor called
    with its default directory: same selector, or same exception. *)
Theorem checkpoint_init_agrees (fs : filesystem) (lib : string) :
  (forall rows, loaded fs lib MODEL_REPO_DIR_DOCKER rows ->
                length (default_rows rows) <> 1) ->
  Checkpoint.__init__ fs lib = __init__ fs lib MODEL_REPO_DIR_DOCKER.
Proof.
  intros Hcount.
  assert (Hload : forall rows, loaded fs lib MODEL_REPO_DIR_DOCKER rows ->
            Checkpoint.__init__ fs lib = __init__ fs lib MODEL_REPO_DIR_DOCKER).
  { intros rows L.
    rewrite (checkpoint_init_loaded _ _ _ L), (init_loaded _ _ _ _ L).
    destruct (all_separated rows) eqn:Hs.
    - apply all_separated_Forall in Hs.
      destruct (rewrite_paths_resolved MODEL_REPO_DIR_DOCKER rows Hs)
        as (d & Hd & Hres).
      rewrite Hd. simpl.
      rewrite (update_model_list_versions_agree (before_model_list lib d) d eq_refl).
      + apply before_model_list_v1.
      + simpl. fold (default_rows d).
        rewrite (resolved_default_rows _ _ _ Hres). exact (Hcount rows L).
    - rewrite (rewrite_paths_malformed MODEL_REPO_DIR_DOCKER rows
                 (not_all_separated_Exists _ Hs)).
      reflexivity. }
  destruct (String.eqb_spec lib "TensorRT") as [-> | H1];
    [| destruct (String.eqb_spec lib "Pytorch") as [-> | H2]].
  - destruct (fs (os_path_join MODEL_REPO_DIR_DOCKER "trt_model_tbl.csv"))
      as [rows |] eqn:Hfs.
    + apply (Hload rows). left. auto.
    + unfold Checkpoint.__init__, __init__, read_csv. simpl.
      simpl in Hfs. rewrite Hfs. reflexivity.
  - destruct (fs (os_path_join MODEL_REPO_DIR_DOCKER "torch_model_tbl.csv"))
      as [rows |] eqn:Hfs.
    + apply (Hload rows). right. auto.
    + unfold Checkpoint.__init__, __init__, read_csv. simpl.
      simpl in Hfs. rewrite Hfs. reflexivity.
  - rewrite (init_unsupported fs lib _ H1 H2).
    unfold Checkpoint.__init__. simpl.
    apply String.eqb_neq in H1, H2. rewrite H1, H2. reflexivity.
Qed.

(** ** load_tune_pth_model *)

Lemma prefix_split (a s : string) :
  String.prefix a s = true <-> exists post, s = (a ++ post)%string.
Proof.
  revert s. induction a as [| c a IH]; intros s.
  - split; [intros _; exists s; reflexivity | intros _; destruct s; reflexivity].
  - destruct s as [| c' s]; simpl.
    + split; [discriminate | intros (post & H); discriminate].
    + destruct (ascii_dec c c') as [<- | N].
      * rewrite IH. split; intros (post & H); exists post.
        -- rewrite H. reflexivity.
        -- injection H. auto.
      * split; [discriminate |].
        intros (post & H). injection H as H _. congruence.
Qed.

(** [str_contains] is Python's substring test. *)
Lemma str_contains_spec (sub s : string) :
  str_contains sub s = true <->
  exists pre post, s = (pre ++ sub ++ post)%string.
Proof.
  induction s as [| c s IH].
  - change (str_contains sub EmptyString)
      with (String.prefix sub EmptyString || false).
    rewrite orb_false_r, prefix_split. split.
    + intros (post & H). exists EmptyString, post. exact H.
    + intros (pre & post & H). destruct pre; [| discriminate].
      exists post. exact H.
  - change (str_contains sub (String c s))
      with (String.prefix sub (String c s) || str_contains sub s).
    rewrite orb_true_iff, prefix_split, IH. split.
    + intros [(post & H) | (pre & post & H)].
      * exists EmptyString, post. exact H.
      * exists (String c pre), post. simpl. rewrite H. reflexivity.
    + intros (pre & post & H). destruct pre as [| c' pre].
      * left. exists post. exact H.
      * right. exists pre, post. simpl in H. injection H. auto.
Qed.

Section LoadTuneProperties.

Variable Model : Type.
Variable E : Type.
Variable pth_models : string -> option (attribute Model E).

(** X14.  [load_tune_pth_model] returns only when torchvision.models has
    a callable attribute of that name and the call returns: the model
    handed back is the one the call returned and the type is one of the
    nine labels, never unset.  In every other case it raises:
    AttributeError when there is no such attribute, TypeError when the
    attribute is not callable, the call's own exception, or
    AssertionError from the last branch. *)
Theorem load_tune_outcomes (pth_model_name : string) (pretrained : bool) :
  match pth_models pth_model_name with
  | None =>
      load_tune_pth_model Model E pth_models pth_model_name pretrained
        = inl (TuneAttributeError E)
  | Some (NotCallable _ _) =>
      load_tune_pth_model Model E pth_models pth_model_name pretrained
        = inl (TuneTypeError E)
  | Some (Callable _ _ call) =>
      match call pretrained with
      | inl e =>
          load_tune_pth_model Model E pth_models pth_model_name pretrained
            = inl (CallRaised E e)
      | inr model =>
          (exists label,
              In label model_type_labels /\
              load_tune_pth_model Model E pth_models pth_model_name pretrained
                = inr (model, Some label)) \/
          load_tune_pth_model Model E pth_models pth_model_name pretrained
            = inl (AssertionError E)
      end
  end.
Proof.
  unfold load_tune_pth_model.
  destruct (pth_models pth_model_name) as [[| call] |]; try reflexivity.
  destruct (call pretrained) as [e | model]; [reflexivity |].
  repeat match goal with
         | |- context [if ?b then _ else _] =>
             destruct b;
             [left; eexists; split; [| reflexivity]; simpl; tauto |]
         end.
  right. reflexivity.
Qed.

(** X15.  When the attribute is callable and the call returns a model,
    but the name is none of mobilenet_v2, vgg11, inception_v3 and
    googlenet and contains none of mobilenet_v3, resnet, efficientnet,
    densenet, shufflenet_v2 and mnasnet, [load_tune_pth_model] raises
    AssertionError: the model that was built is not returned. *)
Theorem load_tune_unlabelled (pth_model_name : string) (pretrained : bool)
    (call : bool -> E + Model) (model : Model) :
  pth_models pth_model_name = Some (Callable Model E call) ->
  call pretrained = inr model ->
  ~ In pth_model_name ["mobilenet_v2"; "vgg11"; "inception_v3"; "googlenet"] ->
  (forall sub,
      In sub ["mobilenet_v3"; "resnet"; "efficientnet"; "densenet";
              "shufflenet_v2"; "mnasnet"] ->
      str_contains sub pth_model_name = false) ->
  load_tune_pth_model Model E pth_models pth_model_name pretrained
    = inl (AssertionError E).
Proof.
  intros Hk Hcall Hname Hsub. unfold load_tune_pth_model. rewrite Hk, Hcall.
  rewrite !Hsub by (simpl; tauto).
  assert (N : forall n, In n ["mobilenet_v2"; "vgg11"; "inception_v3"; "googlenet"] ->
                        (pth_model_name =? n) = false).
  { intros n Hn. apply String.eqb_neq. intros ->. exact (Hname Hn). }
  rewrite !N by (simpl; tauto).
  reflexivity.
Qed.

End LoadTuneProperties.

Lemma load_tune_unlabelled_witness :
  small_models "alexnet"
    = Some (Callable bool string (fun pretrained => inr pretrained)) /\
  load_tune_pth_model bool string small_models "alexnet" true
    = inl (AssertionError string).
Proof.
  split; [reflexivity |].
  apply (load_tune_unlabelled bool string small_models "alexnet" true
           (fun pretrained => inr pretrained) true eq_refl eq_refl).
  - simpl. intros [H | [H | [H | [H | []]]]]; discriminate.
  - intros sub Hsub. simpl in Hsub.
    repeat (destruct Hsub as [<- | Hsub]; [reflexivity |]). destruct Hsub.
Defined.

(** A submodule is not callable: the call raises TypeError before any
    test on the name. *)
Example load_tune_submodule :
  load_tune_pth_model bool string small_models "vgg" true
    = inl (TuneTypeError string).
Proof. reflexivity. Qed.

Lemma checkpoint_init_agrees_witness :
  (forall rows,
      loaded (single_file "/workspace/model_repo/trt_model_tbl.csv" scenario_rows)
             "TensorRT" MODEL_REPO_DIR_DOCKER rows ->
      length (default_rows rows) <> 1) /\
  Checkpoint.__init__
    (single_file "/workspace/model_repo/trt_model_tbl.csv" scenario_rows)
    "TensorRT"
    = __init__
        (single_file "/workspace/model_repo/trt_model_tbl.csv" scenario_rows)
        "TensorRT" MODEL_REPO_DIR_DOCKER /\
  loaded (single_file "/workspace/model_repo/trt_model_tbl.csv" scenario_rows)
         "TensorRT" MODEL_REPO_DIR_DOCKER scenario_rows /\
  length (default_rows scenario_rows) = 2 /\
  exists s,
    Checkpoint.__init__
      (single_file "/workspace/model_repo/trt_model_tbl.csv" scenario_rows)
      "TensorRT" = inr s /\
    model_path_list s
      = ["/workspace/model_repo/a/m1.trt"; "/workspace/model_repo/a/m2.trt"].
Proof.
  assert (H : forall rows,
             loaded (single_file "/workspace/model_repo/trt_model_tbl.csv"
                       scenario_rows)
                    "TensorRT" MODEL_REPO_DIR_DOCKER rows ->
             length (default_rows rows) <> 1).
  { intros rows [[_ Hfs] | [Hlib _]]; [| discriminate].
    vm_compute in Hfs. injection Hfs as <-. vm_compute. discriminate. }
  split; [exact H |].
  split; [exact (checkpoint_init_agrees _ "TensorRT" H) |].
  split; [left; split; reflexivity |].
  split; [reflexivity |].
  eexists. split; reflexivity.
Defined.
